(** * gencruit-backend: authentication, authorization and job routes

    A shallow embedding of the Express handlers of the repository and of
    the Mongoose model they persist through.  Each handler is a pure
    function from the request (and the store, the clock, the random
    salt) to what Express observes: a response, a call of [next(err)], or
    a call of [next()].

    The repository holds two generations of the route files; both are
    embedded, each under the name of the file that holds it. *)

From Stdlib Require Import String Ascii List ZArith Bool Lia.
From Stdlib Require Import DecimalString DecimalPos DecimalZ.
Import ListNotations.

Set Warnings "-register-all".

Open Scope string_scope.
Open Scope list_scope.
Open Scope Z_scope.

(** ** JavaScript values *)

(** JSON scalars, as they arrive in [req.body] and as documents hold
    them.  Numbers are the integers. *)
Inductive jsval : Type :=
  | JUndef
  | JNull
  | JBool (b : bool)
  | JNum (z : Z)
  | JStr (s : string).

(** What a handler serialises with [res.json]. *)
Inductive json : Type :=
  | JV (v : jsval)
  | JObject (fields : list (string * json))
  | JArray (items : list json).

(** [j.k], [None] when [j] is no object or has no such property. *)
Definition json_field (k : string) (j : json) : option json :=
  match j with
  | JObject fields =>
      option_map snd (find (fun kv => (fst kv =? k)%string) fields)
  | _ => None
  end.

(** The property names of an object. *)
Definition json_keys (j : json) : list string :=
  match j with
  | JObject fields => map fst fields
  | _ => []
  end.

(** Whether a property named [k] occurs anywhere in [j]. *)
Fixpoint json_mentions (k : string) (j : json) : bool :=
  match j with
  | JV _ => false
  | JObject fields =>
      existsb (fun kv => let '(k', v) := kv in
                         (k' =? k)%string || json_mentions k v) fields
  | JArray items => existsb (json_mentions k) items
  end.

(** An argument in a call: a scalar or an array literal. *)
Inductive jsarg : Type :=
  | ArgVal (v : jsval)
  | ArgArr (items : list jsval).

Module JS.

(** ToBoolean. *)
Definition truthy (v : jsval) : bool :=
  match v with
  | JUndef | JNull => false
  | JBool b => b
  | JNum z => negb (z =? 0)
  | JStr s => negb (s =? "")%string
  end.

(** [a || b] *)
Definition or (a b : jsval) : jsval := if truthy a then a else b.

(** [a ?? b] *)
Definition nullish (a b : jsval) : jsval :=
  match a with
  | JUndef | JNull => b
  | _ => a
  end.

(** SameValueZero on scalars. *)
Definition sameValueZero (a b : jsval) : bool :=
  match a, b with
  | JUndef, JUndef => true
  | JNull, JNull => true
  | JBool x, JBool y => Bool.eqb x y
  | JNum x, JNum y => x =? y
  | JStr x, JStr y => (x =? y)%string
  | _, _ => false
  end.

(** [args.includes(v)] for a scalar [v]: an element that is an array is
    an object, which SameValueZero never identifies with a scalar. *)
Definition includes (args : list jsarg) (v : jsval) : bool :=
  existsb (fun a => match a with
                    | ArgVal x => sameValueZero x v
                    | ArgArr _ => false
                    end) args.

(** [typeof v] *)
Definition typeof (v : jsval) : string :=
  match v with
  | JUndef => "undefined"
  | JNull => "object"
  | JBool _ => "boolean"
  | JNum _ => "number"
  | JStr _ => "string"
  end.


(** [s.startsWith(p)] *)
Definition startsWith (p s : string) : bool := String.prefix p s.

(** [s.split(' ')], with [cur] the piece being read. *)
Fixpoint split_space_acc (cur : string) (s : string) : list string :=
  match s with
  | EmptyString => [cur]
  | String c rest =>
      if Ascii.eqb c " "%char
      then cur :: split_space_acc EmptyString rest
      else split_space_acc (cur ++ String c EmptyString) rest
  end.

Definition split_space (s : string) : list string :=
  split_space_acc EmptyString s.

End JS.

(** ** HTTP plumbing *)

Record Response : Type := mkResponse {
  status : Z;
  body : json
}.

(** [res.json(b)] answers 200. *)
Definition res_json (b : json) : Response := mkResponse 200 b.

(** An [Error] object as the error handler reads it: [statusCode] is
    [undefined] on errors thrown by libraries. *)
Record JsError : Type := mkError {
  message : string;
  statusCode : option Z
}.

(** utils/customError.js *)
Definition CustomError (msg : string) (code : Z) : JsError :=
  mkError msg (Some code).

(** The rejection of an insert by a unique index. *)
Definition DuplicateKeyError : JsError :=
  mkError "E11000 duplicate key error collection" None.

(** What a middleware or handler does with a request of context [R]. *)
Inductive outcome (R : Type) : Type :=
  | Responded (r : Response)
  | NextErr (e : JsError)
  | Next (req : R).
Arguments Responded {R} r.
Arguments NextErr {R} e.
Arguments Next {R} req.

(** middleware/errorHandler.js *)
Definition errorHandler (err : JsError) : Response :=
  let statusCode :=
    match statusCode err with
    | Some n => if n =? 0 then 500 else n
    | None => 500
    end in
  mkResponse statusCode
    (JObject [("success", JV (JBool false));
              ("message", JV (JStr (if (message err =? "")%string
                                    then "Something went wrong on the server!"
                                    else message err)))]).

(** index.js mounts [errorHandler] after all routes: a [next(err)] ends
    in its response.  [None]: the chain went on to the next stage. *)
Definition terminal {R : Type} (o : outcome R) : option Response :=
  match o with
  | Responded r => Some r
  | NextErr e => Some (errorHandler e)
  | Next _ => None
  end.

(** The body shape [{success: false, message}]. *)
Definition uniform_error_body (b : json) : Prop :=
  exists m : string,
    b = JObject [("success", JV (JBool false)); ("message", JV (JStr m))].

(** ** Tokens (jsonwebtoken) *)

(** The claims the routes sign; [role] is absent from the tokens of the
    first generation of routes/auth.js. *)
Record Payload : Type := mkPayload {
  userId : string;
  role : option string;
  iat : Z;
  exp : Z
}.

(** The compact serialisation and the signature check of the library:
    [jwt_decode t k] is the payload of [t] when [t] is well formed and
    signed with [k]. *)
Class JwtLib : Type := {
  jwt_encode : Payload -> string -> string;
  jwt_decode : string -> string -> option Payload;
  jwt_decode_encode : forall p k, jwt_decode (jwt_encode p k) k = Some p
}.

(** [jwt.sign(claims, secret, { expiresIn: '1h' })] at clock [now], in
    seconds: the library stamps [iat] and sets [exp] one hour later. *)
Definition jwt_sign_1h `{JwtLib} (uid : string) (r : option string)
    (secret : string) (now : Z) : string :=
  jwt_encode (mkPayload uid r now (now + 3600)) secret.

(** [jwt.verify(token, secret)] at clock [now]: [None] when the library
    throws, on a bad signature, a malformed token or a passed expiry. *)
Definition jwt_verify `{JwtLib} (token secret : string) (now : Z)
  : option Payload :=
  match jwt_decode token secret with
  | Some p => if exp p <=? now then None else Some p
  | None => None
  end.

(** ** Requests and gates *)

(** The body of a job request: the five fields the routes destructure,
    [JUndef] where the body has none. *)
Record JobBody : Type := mkJobBody {
  b_title : jsval;
  b_company : jsval;
  b_description : jsval;
  b_location : jsval;
  b_salary : jsval
}.

(** [req.query] of GET /api/jobs. *)
Record ListQuery : Type := mkListQuery {
  q_page : option string;
  q_limit : option string;
  q_search : option string;
  q_company : option string;
  q_location : option string
}.

(** A request to a protected route; [user] is the context the auth gate
    attaches. *)
Record Request : Type := mkRequest {
  header_Authorization : option string;
  params_id : string;
  query : ListQuery;
  body_of : JobBody;
  user : option Payload
}.

(** [req.user = decoded] *)
Definition set_user (req : Request) (decoded : Payload) : Request :=
  mkRequest (header_Authorization req) (params_id req) (query req)
            (body_of req) (Some decoded).

(** [req.user.role] *)
Definition payload_role (p : Payload) : jsval :=
  match role p with
  | Some r => JStr r
  | None => JUndef
  end.

(** Reading a property of [req.user] when no gate has set it. *)
Definition TypeError_undefined (prop : string) : JsError :=
  mkError ("Cannot read properties of undefined (reading '" ++ prop ++ "')")
          None.

(** middleware/auth.js *)
Definition authMiddleware `{JwtLib} (JWT_SECRET : string) (now : Z)
    (req : Request) : outcome Request :=
  let denied :=
    Responded (mkResponse 401
      (JObject [("msg", JV (JStr "No token, authorization denied"))])) in
  match header_Authorization req with
  | None => denied
  | Some authHeader =>
      if negb (JS.truthy (JStr authHeader))
         || negb (JS.startsWith "Bearer " authHeader)
      then denied
      else
        let invalid :=
          Responded (mkResponse 401
            (JObject [("msg", JV (JStr "Token is not valid"))])) in
        match nth_error (JS.split_space authHeader) 1 with
        | None => invalid
        | Some token =>
            match jwt_verify token JWT_SECRET now with
            | Some decoded =>
                Next (set_user req decoded)
            | None => invalid
            end
        end
  end.

(** middleware/authorize.js *)
Definition authorize (allowedRoles : list jsarg) (req : Request)
  : outcome Request :=
  match user req with
  | None => NextErr (TypeError_undefined "role")
  | Some u =>
      if negb (JS.includes allowedRoles (payload_role u))
      then NextErr (CustomError "Access denied: insufficient role" 403)
      else Next req
  end.

(** middleware/roleMiddleware.js *)
Definition authorizeRoles (allowedRoles : list jsarg) (req : Request)
  : outcome Request :=
  match user req with
  | None => NextErr (TypeError_undefined "role")
  | Some u =>
      let userRole := payload_role u in
      if negb (JS.includes allowedRoles userRole)
      then Responded
             (mkResponse 403
                (JObject [("message",
                           JV (JStr "Access denied: Unauthorized role"))]))
      else Next req
  end.

(** The gate as POST /api/jobs registers it in the second generation of
    routes/jobs.js: [authorize(['recruiter', 'admin'])], one argument,
    an array. *)
Definition jobs_create_gate : Request -> outcome Request :=
  authorize [ArgArr [JStr "recruiter"; JStr "admin"]].

(** ** Strings *)

(** Texts are strings of bytes.  On a text of ASCII characters a byte is
    a character, and the functions below are those of JavaScript; on
    other texts they act on the bytes, where JavaScript acts on the
    characters (it trims U+00A0 and lower-cases non-ASCII letters). *)
Module Str.

(** A text of ASCII characters only. *)
Fixpoint ascii_only (s : string) : bool :=
  match s with
  | EmptyString => true
  | String c r => (nat_of_ascii c <? 128)%nat && ascii_only r
  end.

(** The ASCII white space: space, tab, line feed, vertical tab, form
    feed, carriage return. *)
Definition is_space (c : ascii) : bool :=
  let n := nat_of_ascii c in
  ((n =? 32) || ((9 <=? n) && (n <=? 13)))%nat.

Fixpoint trimStart (s : string) : string :=
  match s with
  | EmptyString => EmptyString
  | String c r => if is_space c then trimStart r else s
  end.

Fixpoint trimEnd (s : string) : string :=
  match s with
  | EmptyString => EmptyString
  | String c r =>
      let r' := trimEnd r in
      if (r' =? "")%string && is_space c then EmptyString else String c r'
  end.

(** [s.trim()], of the ASCII white space. *)
Definition trim (s : string) : string := trimEnd (trimStart s).

Definition lower (c : ascii) : ascii :=
  let n := nat_of_ascii c in
  if ((65 <=? n) && (n <=? 90))%nat then ascii_of_nat (n + 32) else c.

(** [s.toLowerCase()], of the ASCII letters. *)
Fixpoint toLowerCase (s : string) : string :=
  match s with
  | EmptyString => EmptyString
  | String c r => String (lower c) (toLowerCase r)
  end.

Definition is_digit (c : ascii) : bool :=
  let n := nat_of_ascii c in ((48 <=? n) && (n <=? 57))%nat.

Fixpoint all_digits (s : string) : bool :=
  match s with
  | EmptyString => true
  | String c r => is_digit c && all_digits r
  end.

(** The text before and after the first ["."]. *)
Fixpoint split_dot (s : string) : option (string * string) :=
  match s with
  | EmptyString => None
  | String c r =>
      if Ascii.eqb c "."%char then Some (EmptyString, r)
      else match split_dot r with
           | Some (a, b) => Some (String c a, b)
           | None => None
           end
  end.

(** The decimal digits of an integer, with its sign. *)
Definition of_Z (z : Z) : string := NilZero.string_of_int (Z.to_int z).

(** [s] without the zeros it ends with. *)
Fixpoint strip_zeros (s : string) : string :=
  match s with
  | EmptyString => EmptyString
  | String c r =>
      let r' := strip_zeros r in
      if (r' =? "")%string && Ascii.eqb c "0"%char
      then EmptyString else String c r'
  end.

(** The exponent form of a positive integer written [digits]:
    [d.ddde+n], the fraction without the zeros it ends with. *)
Definition exponent_form (digits : string) : string :=
  match digits with
  | EmptyString => EmptyString
  | String d r =>
      let fraction := strip_zeros r in
      String d (if (fraction =? "")%string then ""
                else "." ++ fraction)
      ++ "e+" ++ of_Z (Z.of_nat (String.length r))
  end.

(** [String(n)] for an integer-valued number: all its digits below
    10^21, and from there on the exponent form, as in [1e+21].  (For a
    safe integer this is the text JavaScript writes; above, JavaScript
    writes the shortest digits that read back as the same double, which
    are not more than the digits written here.) *)
Definition of_number (z : Z) : string :=
  if Z.abs z <? 10 ^ 21 then of_Z z
  else ((if z <? 0 then "-" else "") ++ exponent_form (of_Z (Z.abs z))).

Definition digit_value (c : ascii) : Z := Z.of_nat (nat_of_ascii c) - 48.

(** The value of the longest prefix of digits, [None] when there is
    none; [acc] is what has been read. *)
Fixpoint digits_prefix (acc : option Z) (s : string) : option Z :=
  match s with
  | EmptyString => acc
  | String c r =>
      if is_digit c
      then digits_prefix
             (Some (10 * match acc with Some a => a | None => 0 end
                    + digit_value c)) r
      else acc
  end.

(** [parseInt(s, 10)]; [None] is [NaN].  The value is the integer the
    digits write: what JavaScript returns for a safe integer, and
    rounds to the nearest double above 2^53. *)
Definition parseInt10 (s : string) : option Z :=
  match trimStart s with
  | String c r =>
      if Ascii.eqb c "-"%char then option_map Z.opp (digits_prefix None r)
      else if Ascii.eqb c "+"%char then digits_prefix None r
      else digits_prefix None (String c r)
  | EmptyString => None
  end.

(** The double quote. *)
Definition dquote : string := String (ascii_of_nat 34) EmptyString.

End Str.

(** ** express-validator *)

(** [isEmail] is the library's own test of an address. *)
Class ValidatorLib : Type := {
  isEmail : string -> bool
}.

Module Validator.

(** The text a standard validator is run on. *)
Definition toString (v : jsval) : string :=
  match v with
  | JUndef | JNull => ""
  | JBool true => "true"
  | JBool false => "false"
  | JNum z => Str.of_number z
  | JStr s => s
  end.

Definition notEmpty (v : jsval) : bool :=
  negb (toString v =? "")%string.

(** [isLength({ min: n })]: the length counted here is that of the
    string of bytes, which is the number of characters of an ASCII
    text and not less than it otherwise. *)
Definition isLength_min (n : nat) (v : jsval) : bool :=
  (n <=? String.length (toString v))%nat.

(** [^[+-]?([0-9]*[.])?[0-9]+$] *)
Definition numeric_text (s : string) : bool :=
  let u :=
    match s with
    | String c r =>
        if Ascii.eqb c "+"%char || Ascii.eqb c "-"%char then r else s
    | EmptyString => s
    end in
  match Str.split_dot u with
  | Some (a, b) =>
      Str.all_digits a && negb (b =? "")%string && Str.all_digits b
  | None => negb (u =? "")%string && Str.all_digits u
  end.

Definition isNumeric (v : jsval) : bool := numeric_text (toString v).

(** [.optional()]: the chain is skipped when the field is [undefined]. *)
Definition optional (chain : jsval -> bool) (v : jsval) : bool :=
  match v with
  | JUndef => true
  | _ => chain v
  end.

End Validator.

(** ** bcryptjs *)

(** [bcrypt_hash pw salt] is the hash string, which carries its salt;
    [bcrypt_compare pw h] recomputes the hash of [pw] under the salt of
    [h].  The first law holds of the library as it is: a hash matches
    the password it was made from.  The other two are the idealisation
    of a password hash as free of collisions (no other password
    matches, and a hash is never the password itself), which bcryptjs,
    with hashes of 60 characters over the first 72 bytes of the
    password, can meet only up to the hardness of finding a collision;
    the results that rest on them say so. *)
Class BcryptLib : Type := {
  bcrypt_hash : string -> string -> string;
  bcrypt_compare : string -> string -> bool;
  bcrypt_compare_hash :
    forall pw salt, bcrypt_compare pw (bcrypt_hash pw salt) = true;
  bcrypt_compare_only :
    forall pw pw' salt,
      bcrypt_compare pw' (bcrypt_hash pw salt) = true -> pw' = pw;
  bcrypt_hash_not_plain :
    forall pw salt, bcrypt_hash pw salt <> pw
}.

Module Bcrypt.

(** [bcrypt.compare(s, hash)] as bcryptjs runs it on what the routes
    pass: an [s] that is no string is refused with an error before
    anything is hashed. *)
Definition compare `{BcryptLib} (s : jsval) (hash : string)
  : JsError + bool :=
  match s with
  | JStr pw => inr (bcrypt_compare pw hash)
  | _ => inl (mkError ("Illegal arguments: " ++ JS.typeof s ++ ", string")
                      None)
  end.

End Bcrypt.

(** ** models/User.js *)

Module User.

Record doc : Type := mk {
  _id : string;
  name : string;
  email : string;
  password : string;
  role : string
}.

Definition collection : Type := list doc.

(** The [role] path: [default: 'candidate'] when nothing is given, the
    string itself otherwise (the routes pass nothing else). *)
Definition cast_role (r : jsval) : string :=
  match r with
  | JStr s => s
  | _ => "candidate"
  end.

(** The setters of the [email] path, [lowercase] and [trim]; Mongoose
    runs them on documents and on query filters alike. *)
Definition cast_email (e : string) : string :=
  Str.toLowerCase (Str.trim e).

(** [new User({ name, email, password, role })] with a fresh [_id]. *)
Definition new (id n e pw : string) (r : jsval) : doc :=
  mk id (Str.trim n) (cast_email e) pw (cast_role r).

(** The first failing validator of each path, in schema order. *)
Definition validation_failures (d : doc) : list string :=
  (if (name d =? "")%string then ["name: Name is required"] else [])
  ++ (if (email d =? "")%string then ["email: Email is required"] else [])
  ++ (if (password d =? "")%string
      then ["password: Password is required"]
      else if (String.length (password d) <? 6)%nat
      then [("password: Path `password` (`" ++ password d
             ++ "`) is shorter than the minimum allowed length (6).")%string]
      else [])
  ++ (if existsb (String.eqb (role d)) ["admin"; "recruiter"; "candidate"]
      then []
      else [("role: `" ++ role d
             ++ "` is not a valid enum value for path `role`.")%string]).

Definition ValidationError (failures : list string) : JsError :=
  mkError ("User validation failed: " ++ String.concat ", " failures) None.

(** [UserSchema.pre('save')]: the password of a new document counts as
    modified; [salt] is what [bcrypt.genSalt(10)] drew. *)
Definition pre_save `{BcryptLib} (salt : string) (d : doc) : doc :=
  mk (_id d) (name d) (email d) (bcrypt_hash (password d) salt) (role d).

(** [doc.save()] of a new document: validation, then the pre-save hook,
    then the insert under the unique indexes on [_id] and [email]. *)
Definition save `{BcryptLib} (c : collection) (d : doc) (salt : string)
  : JsError + (collection * doc) :=
  match validation_failures d with
  | (_ :: _) as failures => inl (ValidationError failures)
  | [] =>
      let d' := pre_save salt d in
      if existsb (fun x => (_id x =? _id d')%string
                           || (email x =? email d')%string) c
      then inl DuplicateKeyError
      else inr (c ++ [d'], d')
  end.

(** [User.findOne({ email })] *)
Definition findOne_email (c : collection) (e : string) : option doc :=
  find (fun x => (email x =? cast_email e)%string) c.

(** [UserSchema.methods.matchPassword] *)
Definition matchPassword `{BcryptLib} (d : doc) (enteredPassword : jsval)
  : JsError + bool :=
  Bcrypt.compare enteredPassword (password d).

End User.

(** ** The auth routes *)

Record SignupBody : Type := mkSignup {
  signup_name : string;
  signup_email : string;
  signup_password : string;
  signup_role : jsval
}.

(** The body of POST /api/auth/login.  No validation chain runs on
    it: the password is whatever the body holds, [JUndef] when it has
    none.  The email is a string. *)
Record LoginBody : Type := mkLoginBody {
  login_email : string;
  login_password : jsval
}.

(** The body the login page posts: both fields are strings. *)
Definition mkLogin (email password : string) : LoginBody :=
  mkLoginBody email (JStr password).

(** The validation chain of POST /api/auth/signup, the same in both
    generations. *)
Definition signup_valid `{ValidatorLib} (b : SignupBody) : bool :=
  Validator.notEmpty (JStr (signup_name b))
  && isEmail (signup_email b)
  && Validator.isLength_min 6 (JStr (signup_password b)).

(** src/routes/auth.js: the route hashes the password itself and signs
    tokens that carry the user id alone. *)
Module AuthRoutes1.

(** POST /api/auth/signup.  [salt] is the salt of the route's own
    [bcrypt.hash(password, 10)], [hook_salt] the one the model draws
    when [newUser.save()] runs its pre-save hook. *)
Definition signup `{ValidatorLib} `{BcryptLib}
    (users : User.collection) (b : SignupBody) (newId salt hook_salt : string)
  : User.collection * outcome unit :=
  if negb (signup_valid b)
  then (users, NextErr (CustomError "Validation failed" 400))
  else
    match User.findOne_email users (signup_email b) with
    | Some _ => (users, NextErr (CustomError "User already exists" 400))
    | None =>
        let hashedPassword := bcrypt_hash (signup_password b) salt in
        let newUser :=
          User.new newId (signup_name b) (signup_email b) hashedPassword
                   JUndef in
        match User.save users newUser hook_salt with
        | inl err => (users, NextErr err)
        | inr (users', _) =>
            (users',
             Responded (mkResponse 201
               (JObject [("msg", JV (JStr "User registered successfully"))])))
        end
    end.

(** POST /api/auth/login *)
Definition login `{BcryptLib} `{JwtLib}
    (users : User.collection) (b : LoginBody) (JWT_SECRET : string) (now : Z)
  : outcome unit :=
  match User.findOne_email users (login_email b) with
  | None => NextErr (CustomError "Invalid credentials" 400)
  | Some user =>
      match Bcrypt.compare (login_password b) (User.password user) with
      | inl err => NextErr err
      | inr isMatch =>
          if negb isMatch
          then NextErr (CustomError "Invalid credentials" 400)
          else
            let token := jwt_sign_1h (User._id user) None JWT_SECRET now in
            Responded (res_json
              (JObject [("token", JV (JStr token));
                        ("user", JObject
                           [("id", JV (JStr (User._id user)));
                            ("name", JV (JStr (User.name user)));
                            ("email", JV (JStr (User.email user)))])]))
      end
  end.

End AuthRoutes1.

(** src/unnamed/part_001 (routes/auth.js with roles): hashing is left to
    the model, tokens carry the user id and the role. *)
Module AuthRoutes2.

Definition user_json (u : User.doc) : json :=
  JObject [("id", JV (JStr (User._id u)));
           ("name", JV (JStr (User.name u)));
           ("email", JV (JStr (User.email u)));
           ("role", JV (JStr (User.role u)))].

(** The role the signup stores for a requested one. *)
Definition assignedRole (requested : jsval) : jsval :=
  let allowedRoles := [ArgVal (JStr "candidate"); ArgVal (JStr "recruiter")] in
  if JS.includes allowedRoles requested then requested else JStr "candidate".

(** POST /api/auth/signup *)
Definition signup `{ValidatorLib} `{BcryptLib} `{JwtLib}
    (users : User.collection) (b : SignupBody) (newId hook_salt : string)
    (JWT_SECRET : string) (now : Z)
  : User.collection * outcome unit :=
  if negb (signup_valid b)
  then (users, NextErr (CustomError "Validation failed" 400))
  else
    match User.findOne_email users (signup_email b) with
    | Some _ => (users, NextErr (CustomError "User already exists" 400))
    | None =>
        let newUser :=
          User.new newId (signup_name b) (signup_email b) (signup_password b)
                   (assignedRole (signup_role b)) in
        match User.save users newUser hook_salt with
        | inl err => (users, NextErr err)
        | inr (users', saved) =>
            let token :=
              jwt_sign_1h (User._id saved) (Some (User.role saved))
                          JWT_SECRET now in
            (users',
             Responded (mkResponse 201
               (JObject [("token", JV (JStr token));
                         ("user", user_json saved)])))
        end
    end.

(** POST /api/auth/login *)
Definition login `{BcryptLib} `{JwtLib}
    (users : User.collection) (b : LoginBody) (JWT_SECRET : string) (now : Z)
  : outcome unit :=
  match User.findOne_email users (login_email b) with
  | None => NextErr (CustomError "Invalid credentials" 400)
  | Some user =>
      match User.matchPassword user (login_password b) with
      | inl err => NextErr err
      | inr isMatch =>
          if negb isMatch
          then NextErr (CustomError "Invalid credentials" 400)
          else
            let token :=
              jwt_sign_1h (User._id user) (Some (User.role user))
                          JWT_SECRET now in
            Responded (res_json
              (JObject [("token", JV (JStr token));
                        ("user", user_json user)]))
      end
  end.

End AuthRoutes2.

(** ** The job collection *)

Module Job.

(** Modelled from the spec: models/Job.js is not under src/.  A job
    posting has an identifier, title, company, description, location,
    salary, an owner reference and a creation time; the five fields a
    request sets hold the value assigned to them. *)
Record doc : Type := mk {
  _id : string;
  title : jsval;
  company : jsval;
  description : jsval;
  location : jsval;
  salary : jsval;
  user : string;
  createdAt : Z
}.

Definition collection : Type := list doc.

Definition to_json (j : doc) : json :=
  JObject [("_id", JV (JStr (_id j)));
           ("title", JV (title j));
           ("company", JV (company j));
           ("description", JV (description j));
           ("location", JV (location j));
           ("salary", JV (salary j));
           ("user", JV (JStr (user j)));
           ("createdAt", JV (JNum (createdAt j)))].

End Job.

(** What Mongoose and the database contribute to the job routes:
    the cast of a string to an ObjectId (its canonical text, [None] when
    it is none), the validation of the job schema, case-insensitive
    [$regex] matching, and the cursor
    [find(q).sort({ createdAt: -1 }).skip(s).limit(n)] run on the
    documents that match [q], which yields some of them. *)
Class JobStoreLib : Type := {
  castObjectId : string -> option string;
  job_validate : Job.doc -> option JsError;
  regex_i : string -> jsval -> bool;
  run_cursor : list Job.doc -> option Z -> option Z -> JsError + list Job.doc;
  run_cursor_incl :
    forall l s n page, run_cursor l s n = inr page -> incl page l
}.

Definition CastError (value path : string) : JsError :=
  mkError ("Cast to ObjectId failed for value " ++ Str.dquote ++ value
           ++ Str.dquote ++ " (type string) at path " ++ Str.dquote ++ path
           ++ Str.dquote ++ " for model " ++ Str.dquote ++ "Job"
           ++ Str.dquote) None.

(** Run [k] on the request a gate lets through; [stop] ends the chain
    with what the gate did otherwise. *)
Definition through {T : Type} (gate : outcome Request)
    (stop : outcome unit -> T) (k : Request -> T) : T :=
  match gate with
  | Next req' => k req'
  | Responded r => stop (Responded r)
  | NextErr e => stop (NextErr e)
  end.

(** The handlers that routes/jobs.js has in both generations. *)
Module JobRoutes.

(** The validation chain of POST /api/jobs. *)
Definition create_valid (b : JobBody) : bool :=
  Validator.notEmpty (b_title b)
  && Validator.notEmpty (b_company b)
  && Validator.isLength_min 10 (b_description b)
  && Validator.notEmpty (b_location b)
  && Validator.optional Validator.isNumeric (b_salary b).

(** The validation chain of PUT /api/jobs/:id. *)
Definition update_valid (b : JobBody) : bool :=
  Validator.optional Validator.notEmpty (b_title b)
  && Validator.optional Validator.notEmpty (b_company b)
  && Validator.optional (Validator.isLength_min 10) (b_description b)
  && Validator.optional Validator.notEmpty (b_location b)
  && Validator.optional Validator.isNumeric (b_salary b).

(** [Job.findOne({ _id: id, user: uid })].  Mongoose casts the paths
    of a filter from the last to the first: a [uid] that is no ObjectId
    is reported before an [id] that is none. *)
Definition findOne `{JobStoreLib} (jobs : Job.collection) (id uid : string)
  : JsError + option Job.doc :=
  match castObjectId uid with
  | None => inl (CastError uid "user")
  | Some u =>
      match castObjectId id with
      | None => inl (CastError id "_id")
      | Some i =>
          inr (find (fun j => (Job._id j =? i)%string
                              && (Job.user j =? u)%string) jobs)
      end
  end.

(** The handler of POST /api/jobs. *)
Definition create `{JobStoreLib} (jobs : Job.collection) (newId : string)
    (now : Z) (req : Request) : Job.collection * outcome unit :=
  if negb (create_valid (body_of req))
  then (jobs, NextErr (CustomError "Validation failed" 400))
  else
    match user req with
    | None => (jobs, NextErr (TypeError_undefined "userId"))
    | Some u =>
        match castObjectId (userId u) with
        | None => (jobs, NextErr (CastError (userId u) "user"))
        | Some owner =>
            let b := body_of req in
            let newJob :=
              Job.mk newId (b_title b) (b_company b) (b_description b)
                     (b_location b) (b_salary b) owner now in
            match job_validate newJob with
            | Some err => (jobs, NextErr err)
            | None =>
                if existsb (fun j => (Job._id j =? newId)%string) jobs
                then (jobs, NextErr DuplicateKeyError)
                else (jobs ++ [newJob],
                      Responded (mkResponse 201 (Job.to_json newJob)))
            end
        end
    end.

(** The filter GET /api/jobs builds, for the owner [u]. *)
Definition list_query `{JobStoreLib} (u : string) (q : ListQuery)
    (j : Job.doc) : bool :=
  (Job.user j =? u)%string
  && (let search := match q_search q with Some s => s | None => "" end in
      if JS.truthy (JStr search)
      then regex_i search (Job.title j) || regex_i search (Job.description j)
      else true)
  && (match q_company q with
      | Some c => if JS.truthy (JStr c) then regex_i c (Job.company j)
                  else true
      | None => true
      end)
  && (match q_location q with
      | Some l => if JS.truthy (JStr l) then regex_i l (Job.location j)
                  else true
      | None => true
      end).

(** A number in a response: [NaN] and the infinities serialise as
    [null]. *)
Definition num_json (n : option Z) : json :=
  match n with
  | Some z => JV (JNum z)
  | None => JV JNull
  end.

(** [Math.ceil(total / limit)] *)
Definition ceil_div (total : Z) (limit : option Z) : option Z :=
  match limit with
  | None => None
  | Some n => if n =? 0 then None else Some (- ((- total) / n))
  end.

(** The handler of GET /api/jobs. *)
Definition list `{JobStoreLib} (jobs : Job.collection) (req : Request)
  : outcome unit :=
  let q := query req in
  let pageNumber :=
    match q_page q with Some p => Str.parseInt10 p | None => Some 1 end in
  let limitNumber :=
    match q_limit q with Some l => Str.parseInt10 l | None => Some 10 end in
  let skip :=
    match pageNumber, limitNumber with
    | Some p, Some l => Some ((p - 1) * l)
    | _, _ => None
    end in
  match user req with
  | None => NextErr (TypeError_undefined "userId")
  | Some u =>
      match castObjectId (userId u) with
      | None => NextErr (CastError (userId u) "user")
      | Some owner =>
          let matching := filter (list_query owner q) jobs in
          let totalJobs := Z.of_nat (length matching) in
          match run_cursor matching skip limitNumber with
          | inl err => NextErr err
          | inr page =>
              Responded (res_json
                (JObject [("success", JV (JBool true));
                          ("total", JV (JNum totalJobs));
                          ("page", num_json pageNumber);
                          ("totalPages",
                           num_json (ceil_div totalJobs limitNumber));
                          ("jobs", JArray (map Job.to_json page))]))
          end
      end
  end.

(** The handler of GET /api/jobs/:id. *)
Definition get `{JobStoreLib} (jobs : Job.collection) (req : Request)
  : outcome unit :=
  match user req with
  | None => NextErr (TypeError_undefined "userId")
  | Some u =>
      match findOne jobs (params_id req) (userId u) with
      | inl err => NextErr err
      | inr None => NextErr (CustomError "Job not found" 404)
      | inr (Some job) => Responded (res_json (Job.to_json job))
      end
  end.

(** [job.save()] of a loaded document: it takes the place of the
    stored one. *)
Definition replace (jobs : Job.collection) (job : Job.doc)
  : Job.collection :=
  map (fun j => if (Job._id j =? Job._id job)%string then job else j) jobs.

(** The five assignments of PUT /api/jobs/:id; [keep provided old] is
    the expression that picks the new value of a field, [provided || old]
    in src/routes/jobs.js and [provided ?? old] in the later file. *)
Definition assign (keep : jsval -> jsval -> jsval) (b : JobBody)
    (job : Job.doc) : Job.doc :=
  Job.mk (Job._id job)
         (keep (b_title b) (Job.title job))
         (keep (b_company b) (Job.company job))
         (keep (b_description b) (Job.description job))
         (keep (b_location b) (Job.location job))
         (keep (b_salary b) (Job.salary job))
         (Job.user job) (Job.createdAt job).

(** The handler of PUT /api/jobs/:id. *)
Definition put `{JobStoreLib} (keep : jsval -> jsval -> jsval)
    (jobs : Job.collection) (req : Request) : Job.collection * outcome unit :=
  if negb (update_valid (body_of req))
  then (jobs, NextErr (CustomError "Validation failed" 400))
  else
    let b := body_of req in
    match user req with
    | None => (jobs, NextErr (TypeError_undefined "userId"))
    | Some u =>
        match findOne jobs (params_id req) (userId u) with
        | inl err => (jobs, NextErr err)
        | inr None => (jobs, NextErr (CustomError "Job not found" 404))
        | inr (Some job) =>
            let job' := assign keep b job in
            match job_validate job' with
            | Some err => (jobs, NextErr err)
            | None => (replace jobs job', Responded (res_json (Job.to_json job')))
            end
        end
    end.

(** [Job.findOneAndDelete({ _id: id, user: uid })]: the collection
    without the first match, and the match. *)
Fixpoint findOneAndDelete (jobs : Job.collection) (i u : string)
  : Job.collection * option Job.doc :=
  match jobs with
  | [] => ([], None)
  | j :: rest =>
      if (Job._id j =? i)%string && (Job.user j =? u)%string
      then (rest, Some j)
      else let '(rest', found) := findOneAndDelete rest i u in
           (j :: rest', found)
  end.

(** The handler of DELETE /api/jobs/:id. *)
Definition delete `{JobStoreLib} (jobs : Job.collection) (req : Request)
  : Job.collection * outcome unit :=
  match user req with
  | None => (jobs, NextErr (TypeError_undefined "userId"))
  | Some u =>
      match castObjectId (userId u) with
      | None => (jobs, NextErr (CastError (userId u) "user"))
      | Some owner =>
          match castObjectId (params_id req) with
          | None => (jobs, NextErr (CastError (params_id req) "_id"))
          | Some i =>
              match findOneAndDelete jobs i owner with
              | (_, None) => (jobs, NextErr (CustomError "Job not found" 404))
              | (jobs', Some _) =>
                  (jobs',
                   Responded (res_json
                     (JObject [("msg", JV (JStr "Job deleted successfully"))])))
              end
          end
      end
  end.

(** The routes both generations register alike: the auth gate, then
    the handler. *)
Section Routes.
Context `{JwtLib} `{JobStoreLib}.
Variables (JWT_SECRET : string) (now : Z).

Definition GET_list (jobs : Job.collection) (req : Request)
  : outcome unit :=
  through (authMiddleware JWT_SECRET now req) (fun o => o) (list jobs).

Definition GET_id (jobs : Job.collection) (req : Request) : outcome unit :=
  through (authMiddleware JWT_SECRET now req) (fun o => o) (get jobs).

Definition PUT_id (keep : jsval -> jsval -> jsval)
    (jobs : Job.collection) (req : Request)
  : Job.collection * outcome unit :=
  through (authMiddleware JWT_SECRET now req) (pair jobs) (put keep jobs).

Definition DELETE_id (jobs : Job.collection) (req : Request)
  : Job.collection * outcome unit :=
  through (authMiddleware JWT_SECRET now req) (pair jobs) (delete jobs).
End Routes.

End JobRoutes.

(** src/routes/jobs.js *)
Module JobRoutes1.
Section Routes.
Context `{JwtLib} `{JobStoreLib}.
Variables (JWT_SECRET : string) (now : Z).

(** POST /api/jobs: any logged-in user. *)
Definition POST (jobs : Job.collection) (newId : string) (req : Request)
  : Job.collection * outcome unit :=
  through (authMiddleware JWT_SECRET now req) (pair jobs)
          (JobRoutes.create jobs newId now).

(** PUT /api/jobs/:id *)
Definition PUT_id : Job.collection -> Request
                    -> Job.collection * outcome unit :=
  JobRoutes.PUT_id JWT_SECRET now JS.or.
End Routes.
End JobRoutes1.

(** routes/jobs.js as the second document of src/routes/auth.js has it *)
Module JobRoutes2.
Section Routes.
Context `{JwtLib} `{JobStoreLib}.
Variables (JWT_SECRET : string) (now : Z).

(** POST /api/jobs: the auth gate, the role gate, the handler. *)
Definition POST (jobs : Job.collection) (newId : string) (req : Request)
  : Job.collection * outcome unit :=
  through (authMiddleware JWT_SECRET now req) (pair jobs)
    (fun req1 =>
       through (jobs_create_gate req1) (pair jobs)
               (JobRoutes.create jobs newId now)).

(** PUT /api/jobs/:id *)
Definition PUT_id : Job.collection -> Request
                    -> Job.collection * outcome unit :=
  JobRoutes.PUT_id JWT_SECRET now JS.nullish.
End Routes.
End JobRoutes2.


(** ** Vocabulary of the properties *)

(** [s] without its first [n] characters. *)
Fixpoint drop (n : nat) (s : string) : string :=
  match n, s with
  | O, _ => s
  | S n', String _ r => drop n' r
  | S _, EmptyString => EmptyString
  end.

(** The text of [s] before its first space. *)
Fixpoint up_to_space (s : string) : string :=
  match s with
  | EmptyString => EmptyString
  | String c r =>
      if Ascii.eqb c " "%char then EmptyString else String c (up_to_space r)
  end.

(** The bearer token of a request: what follows ["Bearer "] in its
    Authorization header, up to the next space; [None] when the header
    is absent or does not start with ["Bearer "]. *)
Definition bearer_token (req : Request) : option string :=
  match header_Authorization req with
  | Some h =>
      if String.prefix "Bearer " h then Some (up_to_space (drop 7 h))
      else None
  | None => None
  end.

(** The [token] property of a response body. *)
Definition response_token (r : Response) : option string :=
  match json_field "token" (body r) with
  | Some (JV (JStr t)) => Some t
  | _ => None
  end.

(** An outcome that is a success response or a call of [next]. *)
Definition ok_or_forwarded {R : Type} (o : outcome R) : Prop :=
  match o with
  | Responded r => status r = 200 \/ status r = 201
  | NextErr _ => True
  | Next _ => True
  end.

(** A request that carries nothing. *)
Definition bare_request : Request :=
  mkRequest None "" (mkListQuery None None None None None)
            (mkJobBody JUndef JUndef JUndef JUndef JUndef) None.

(** The answer to a failed login. *)
Definition invalid_credentials : Response :=
  mkResponse 400
    (JObject [("success", JV (JBool false));
              ("message", JV (JStr "Invalid credentials"))]).

(** The answer to a request for a job that is absent or not the
    requester's. *)
Definition job_not_found : Response :=
  mkResponse 404
    (JObject [("success", JV (JBool false));
              ("message", JV (JStr "Job not found"))]).



(** The body [{ msg }] the auth gate answers with. *)
Definition msg_body (m : string) : json := JObject [("msg", JV (JStr m))].


(** ** A model of the library interfaces

    Executable instances of the four interfaces: the laws can be met, and
    the handlers can be run on concrete requests. *)

Module Model.

(** A text followed by [rest], so that it can be read back. *)
Fixpoint put_text (s rest : string) : string :=
  match s with
  | EmptyString => String "."%char rest
  | String c s' => String "+"%char (String c (put_text s' rest))
  end.

Fixpoint get_text (t : string) : option (string * string) :=
  match t with
  | EmptyString => None
  | String m r =>
      if Ascii.eqb m "."%char then Some (EmptyString, r)
      else if Ascii.eqb m "+"%char then
        match r with
        | EmptyString => None
        | String c r' =>
            match get_text r' with
            | Some (s, rest) => Some (String c s, rest)
            | None => None
            end
        end
      else None
  end.

Definition put_Z (z : Z) (rest : string) : string :=
  put_text (Str.of_Z z) rest.

Definition get_Z (t : string) : option (Z * string) :=
  match get_text t with
  | Some (s, rest) =>
      match NilZero.int_of_string s with
      | Some d => Some (Z.of_int d, rest)
      | None => None
      end
  | None => None
  end.

Definition put_role (r : option string) (rest : string) : string :=
  match r with
  | None => String "n"%char rest
  | Some x => String "s"%char (put_text x rest)
  end.

Definition get_role (t : string) : option (option string * string) :=
  match t with
  | EmptyString => None
  | String m r =>
      if Ascii.eqb m "n"%char then Some (None, r)
      else if Ascii.eqb m "s"%char then
        match get_text r with
        | Some (x, rest) => Some (Some x, rest)
        | None => None
        end
      else None
  end.

(** A token: the key, then the four claims. *)
Definition encode (p : Payload) (k : string) : string :=
  put_text k
    (put_text (userId p)
       (put_role (role p) (put_Z (iat p) (put_Z (exp p) EmptyString)))).

Definition decode (t k : string) : option Payload :=
  match get_text t with
  | Some (k', t1) =>
      if (k' =? k)%string then
        match get_text t1 with
        | Some (uid, t2) =>
            match get_role t2 with
            | Some (r, t3) =>
                match get_Z t3 with
                | Some (i, t4) =>
                    match get_Z t4 with
                    | Some (e, EmptyString) => Some (mkPayload uid r i e)
                    | _ => None
                    end
                | None => None
                end
            | None => None
            end
        | None => None
        end
      else None
  | None => None
  end.

(** A hash that carries its salt and, readably, the password. *)
Definition hash (pw salt : string) : string := put_text salt pw.

Definition compare (pw h : string) : bool :=
  match get_text h with
  | Some (_, p) => (p =? pw)%string
  | None => false
  end.

(** Whether [p] occurs in [s]. *)
Fixpoint contains (p s : string) : bool :=
  String.prefix p s
  || match s with
     | EmptyString => false
     | String _ r => contains p r
     end.

Definition regex (pattern : string) (v : jsval) : bool :=
  match v with
  | JStr s => contains (Str.toLowerCase pattern) (Str.toLowerCase s)
  | _ => false
  end.

Fixpoint insert_newest (j : Job.doc) (l : list Job.doc) : list Job.doc :=
  match l with
  | [] => [j]
  | x :: r =>
      if Job.createdAt x <? Job.createdAt j then j :: l
      else x :: insert_newest j r
  end.

Definition sort_newest (l : list Job.doc) : list Job.doc :=
  fold_right insert_newest [] l.

Definition cursor (l : list Job.doc) (skip limit : option Z)
  : JsError + list Job.doc :=
  match skip, limit with
  | Some s, Some n =>
      if (s <? 0) || (n <? 0)
      then inl (mkError "skip and limit must be non-negative" None)
      else
        let rest := skipn (Z.to_nat s) (sort_newest l) in
        inr (if n =? 0 then rest else firstn (Z.to_nat n) rest)
  | _, _ => inl (mkError "skip and limit must be numbers" None)
  end.

Lemma get_put_text (s rest : string) :
  get_text (put_text s rest) = Some (s, rest).
Proof.
  induction s as [|c s IH]; simpl.
  - reflexivity.
  - now rewrite IH.
Qed.

Lemma get_put_Z (z : Z) (rest : string) :
  get_Z (put_Z z rest) = Some (z, rest).
Proof.
  unfold get_Z, put_Z, Str.of_Z. rewrite get_put_text.
  rewrite NilZero.isi.
  - now rewrite DecimalZ.of_to.
  - destruct z; simpl; try discriminate.
    intros [= E]. now apply (Unsigned.to_uint_nonnil p).
  - destruct z; simpl; try discriminate.
    intros [= E]. now apply (Unsigned.to_uint_nonnil p).
Qed.

Lemma get_put_role (r : option string) (rest : string) :
  get_role (put_role r rest) = Some (r, rest).
Proof.
  destruct r as [x|]; simpl.
  - now rewrite get_put_text.
  - reflexivity.
Qed.

Lemma decode_encode (p : Payload) (k : string) : decode (encode p k) k = Some p.
Proof.
  unfold decode, encode.
  rewrite get_put_text, String.eqb_refl, get_put_text, get_put_role.
  rewrite !get_put_Z. now destruct p.
Qed.

Lemma length_put_text (s rest : string) :
  (String.length rest < String.length (put_text s rest))%nat.
Proof.
  induction s as [|c s IH]; simpl; lia.
Qed.

Lemma compare_hash (pw salt : string) : compare pw (hash pw salt) = true.
Proof.
  unfold compare, hash. rewrite get_put_text. apply String.eqb_refl.
Qed.

Lemma compare_only (pw pw' salt : string) :
  compare pw' (hash pw salt) = true -> pw' = pw.
Proof.
  unfold compare, hash. rewrite get_put_text.
  intro E. apply String.eqb_eq in E. congruence.
Qed.

Lemma hash_not_plain (pw salt : string) : hash pw salt <> pw.
Proof.
  unfold hash. intro E.
  pose proof (length_put_text salt pw) as L. rewrite E in L. lia.
Qed.

Lemma In_insert_newest (j y : Job.doc) (l : list Job.doc) :
  In y (insert_newest j l) -> y = j \/ In y l.
Proof.
  induction l as [|x r IH]; simpl.
  - intros [<-|[]]. now left.
  - destruct (Job.createdAt x <? Job.createdAt j); simpl.
    + intros [<-|[<-|Hy]]; auto.
    + intros [<-|Hy]; auto. destruct (IH Hy); auto.
Qed.

Lemma incl_sort_newest (l : list Job.doc) : incl (sort_newest l) l.
Proof.
  induction l as [|x r IH]; simpl.
  - apply incl_refl.
  - intros y Hy. apply In_insert_newest in Hy as [->|Hy].
    + now left.
    + right. now apply IH.
Qed.

Lemma cursor_incl (l : list Job.doc) (s n : option Z) (page : list Job.doc) :
  cursor l s n = inr page -> incl page l.
Proof.
  unfold cursor. destruct s as [s|], n as [n|]; try discriminate.
  destruct ((s <? 0) || (n <? 0)); [discriminate|].
  intros [= <-] y Hy.
  apply incl_sort_newest.
  set (m := sort_newest l) in *. set (k := Z.to_nat s) in *.
  assert (In y (skipn k m)) as Hs.
  { destruct (n =? 0); [exact Hy|].
    rewrite <- (firstn_skipn (Z.to_nat n) (skipn k m)).
    apply in_or_app. now left. }
  rewrite <- (firstn_skipn k m). apply in_or_app. now right.
Qed.

#[export] Instance validator : ValidatorLib :=
  {| isEmail := contains "@" |}.

#[export] Instance bcrypt : BcryptLib :=
  {| bcrypt_hash := hash;
     bcrypt_compare := compare;
     bcrypt_compare_hash := compare_hash;
     bcrypt_compare_only := compare_only;
     bcrypt_hash_not_plain := hash_not_plain |}.

#[export] Instance jwt : JwtLib :=
  {| jwt_encode := encode;
     jwt_decode := decode;
     jwt_decode_encode := decode_encode |}.

#[export] Instance jobStore : JobStoreLib :=
  {| castObjectId := Some;
     job_validate := fun _ => None;
     regex_i := regex;
     run_cursor := cursor;
     run_cursor_incl := cursor_incl |}.

(** Sample data: Alice, registered with the password ["secret1"]. *)
Definition alice : User.doc :=
  User.mk "64b000000000000000000001" "Alice" "alice@x.com"
          (hash "secret1" "salt") "candidate".

Definition alice_signup (r : jsval) : SignupBody :=
  mkSignup "Alice" "alice@x.com" "secret1" r.

Definition alice_login : LoginBody := mkLogin "alice@x.com" "secret1".

Definition alice_claims : Payload :=
  mkPayload "64b000000000000000000001" (Some "candidate") 0 3600.

(** Bob, a recruiter, and a job posting of his. *)
Definition bob_claims : Payload :=
  mkPayload "64b000000000000000000002" (Some "recruiter") 0 3600.

Definition bob_job : Job.doc :=
  Job.mk "64c000000000000000000001" (JStr "Engineer") (JStr "Acme")
         (JStr "Builds the things we sell") (JStr "Paris") (JNum 50000)
         "64b000000000000000000002" 1700000000.

Definition no_query : ListQuery := mkListQuery None None None None None.

Definition no_fields : JobBody :=
  mkJobBody JUndef JUndef JUndef JUndef JUndef.

(** A request for Bob's job that passed the auth gate with the claims
    [p]. *)
Definition request_by (p : Payload) (b : JobBody) : Request :=
  mkRequest None "64c000000000000000000001" no_query b (Some p).

(** The response of an outcome that is one. *)
Definition responded (o : outcome unit) : Response :=
  match o with
  | Responded r => r
  | _ => mkResponse 0 (JV JUndef)
  end.

(** Alice signs up through part_001 and asks to be an administrator. *)
Definition admin_signup : User.collection * outcome unit :=
  AuthRoutes2.signup [] (alice_signup (JStr "admin"))
    "64b000000000000000000001" "salt" "k" 0.

(** Bob's request to create a job, with the token a login issued him at
    clock 0. *)
Definition bob_create : Request :=
  mkRequest
    (Some ("Bearer " ++ jwt_sign_1h "64b000000000000000000002"
                                    (Some "recruiter") "k" 0)%string)
    "" no_query
    (mkJobBody (JStr "Engineer") (JStr "Acme")
               (JStr "Builds the things we sell") (JStr "Paris") (JNum 50000))
    None.

End Model.

(** * The rest of the code

    The routes, the model operations, the seeding script and the signup
    page that the properties above do not reach. *)

(** ** GET /api/auth/protected *)

(** The handler, the same in both generations of routes/auth.js. *)
Definition protected (req : Request) : outcome unit :=
  match user req with
  | None => NextErr (TypeError_undefined "userId")
  | Some u =>
      Responded (res_json
        (msg_body ("Hello " ++ userId u ++ ", you're authorized!")))
  end.

(** The route: the auth gate, then the handler. *)
Definition GET_protected `{JwtLib} (JWT_SECRET : string) (now : Z)
    (req : Request) : outcome unit :=
  through (authMiddleware JWT_SECRET now req) (fun o => o) protected.

(** A request that presents [token] as its bearer token. *)
Definition with_bearer (req : Request) (token : string) : Request :=
  mkRequest (Some ("Bearer " ++ token)%string) (params_id req) (query req)
            (body_of req) (user req).

(** The answer of the role gate of middleware/authorize.js to a role
    that is not allowed. *)
Definition access_denied : Response :=
  mkResponse 403
    (JObject [("success", JV (JBool false));
              ("message", JV (JStr "Access denied: insufficient role"))]).

(** The role strings [rs] as the arguments of a call. *)
Definition role_args (rs : list string) : list jsarg :=
  map (fun r => ArgVal (JStr r)) rs.

(** ** Bodies of the types the schemas declare *)




(** A signup body of ASCII texts. *)
Definition plain_signup (b : SignupBody) : bool :=
  Str.ascii_only (signup_name b) && Str.ascii_only (signup_email b)
  && Str.ascii_only (signup_password b).

(** ** scripts/seedUsers.js *)

Module SeedUsers.

Record seed : Type := mkSeed {
  seed_name : string;
  seed_email : string;
  seed_password : string
}.

(** The dummy user data of the script. *)
Definition users : list seed :=
  [mkSeed "Alice Johnson" "alice@example.com" "password123";
   mkSeed "Bob Smith" "bob@example.com" "password123";
   mkSeed "Charlie Brown" "charlie@example.com" "password123"].

(** [User.deleteMany({})] *)
Definition deleteMany (c : User.collection) : User.collection := [].

(** The ordered insert of validated documents: each goes in under the
    unique indexes on [_id] and [email]; the first one an index rejects
    ends the insert, with the earlier ones in. *)
Fixpoint insert_ordered (c : User.collection) (docs : list User.doc)
  : User.collection * option JsError :=
  match docs with
  | [] => (c, None)
  | d :: rest =>
      if existsb (fun x => (User._id x =? User._id d)%string
                           || (User.email x =? User.email d)%string) c
      then (c, Some DuplicateKeyError)
      else insert_ordered (c ++ [d]) rest
  end.

(** [User.insertMany(docs)]: the documents are built and validated as by
    [new User], a validation failure rejects the whole call; the save
    hooks do not run, so a password goes in as it was given.  [id_of i]
    is the fresh [_id] of the [i]-th document. *)
Definition insertMany (c : User.collection) (id_of : nat -> string)
    (docs : list seed) : User.collection * option JsError :=
  let built :=
    map (fun p => User.new (id_of (fst p)) (seed_name (snd p))
                           (seed_email (snd p)) (seed_password (snd p)) JUndef)
        (combine (seq 0 (length docs)) docs) in
  match find (fun d => negb (Nat.eqb (length (User.validation_failures d)) 0))
             built with
  | Some d => (c, Some (User.ValidationError (User.validation_failures d)))
  | None => insert_ordered c built
  end.

(** The script on the list [data]: clear the collection, hash every
    password ([salt_of i] is the salt [bcrypt.hash(password, 10)] draws
    for the [i]-th user), insert. *)
Definition seed_with `{BcryptLib} (data : list seed)
    (c : User.collection) (id_of salt_of : nat -> string)
  : User.collection * option JsError :=
  let cleared := deleteMany c in
  let hashedUsers :=
    map (fun p => mkSeed (seed_name (snd p)) (seed_email (snd p))
                         (bcrypt_hash (seed_password (snd p))
                                      (salt_of (fst p))))
        (combine (seq 0 (length data)) data) in
  insertMany cleared id_of hashedUsers.

Definition seedUsers `{BcryptLib} : User.collection -> (nat -> string)
    -> (nat -> string) -> User.collection * option JsError :=
  seed_with users.

End SeedUsers.

(** ** gencruit-frontend/src/pages/Signup.jsx *)

Module SignupPage.

(** How the promise of [axios.post] settles: fulfilled with the response
    when its status is 2xx, rejected with the response otherwise,
    rejected without one when no response arrived. *)
Inductive settled : Type :=
  | Fulfilled (res : Response)
  | Rejected (response : option Response).

Definition axios_post (answer : option Response) : settled :=
  match answer with
  | None => Rejected None
  | Some r =>
      if (200 <=? status r) && (status r <? 300) then Fulfilled r
      else Rejected (Some r)
  end.

(** ToBoolean of a value of a response body. *)
Definition truthy (v : json) : bool :=
  match v with
  | JV x => JS.truthy x
  | _ => true
  end.

(** [data?.msg || fallback] *)
Definition msg_or (data : json) (fallback : string) : json :=
  match json_field "msg" data with
  | Some msg => if truthy msg then msg else JV (JStr fallback)
  | None => JV (JStr fallback)
  end.

(** What [handleSubmit] leaves in [message] once the request settled. *)
Definition handleSubmit (s : settled) : json :=
  match s with
  | Fulfilled res => msg_or (body res) "User registered successfully!"
  | Rejected (Some response) => msg_or (body response) "Something went wrong"
  | Rejected None => JV (JStr "Something went wrong")
  end.

(** [handleChange] on the form data: the changed field takes the new
    value, a field the form did not have is added. *)
Fixpoint handleChange (formData : list (string * string))
    (name value : string) : list (string * string) :=
  match formData with
  | [] => [(name, value)]
  | (k, v) :: rest =>
      if (k =? name)%string then (k, value) :: rest
      else (k, v) :: handleChange rest name value
  end.

(** [formData[name]] *)
Definition field (formData : list (string * string)) (name : string)
  : option string :=
  option_map snd (find (fun kv => (fst kv =? name)%string) formData).

End SignupPage.

(** * Properties *)

(** ** JavaScript operators *)

(** SameValueZero on scalars is equality. *)
Lemma sameValueZero_eq (a b : jsval) : JS.sameValueZero a b = true <-> a = b.
Proof.
  destruct a, b; simpl; split; intro E; try discriminate; try reflexivity.
  - apply Bool.eqb_prop in E. now subst.
  - injection E as ->. apply Bool.eqb_reflx.
  - apply Z.eqb_eq in E. now subst.
  - injection E as ->. apply Z.eqb_refl.
  - apply String.eqb_eq in E. now subst.
  - injection E as ->. apply String.eqb_refl.
Qed.

(** [includes] over scalar arguments is membership. *)
Lemma includes_scalars (vs : list jsval) (v : jsval) :
  JS.includes (map ArgVal vs) v = true <-> In v vs.
Proof.
  unfold JS.includes. rewrite existsb_exists. split.
  - intros [a [Ha E]]. apply in_map_iff in Ha as [x [<- Hx]].
    apply sameValueZero_eq in E. now subst.
  - intro Hv. exists (ArgVal v). split.
    + now apply in_map.
    + now apply sameValueZero_eq.
Qed.

(** [includes] finds no scalar in a list whose one element is an
    array. *)
Lemma includes_wrapped_array (items : list jsval) (v : jsval) :
  JS.includes [ArgArr items] v = false.
Proof. reflexivity. Qed.

(** ** The role gate *)

(** Called as its usage comment shows, [authorize('recruiter', 'admin')],
    the gate lets a request through exactly when its role is one of the
    two. *)
Lemma authorize_spread (req : Request) (u : Payload) :
  let gate := authorize [ArgVal (JStr "recruiter"); ArgVal (JStr "admin")] in
  (role u = Some "recruiter" \/ role u = Some "admin" ->
   gate (set_user req u) = Next (set_user req u))
  /\ (role u <> Some "recruiter" -> role u <> Some "admin" ->
      terminal (gate (set_user req u))
      = Some (mkResponse 403
                (JObject [("success", JV (JBool false));
                          ("message",
                           JV (JStr "Access denied: insufficient role"))]))).
Proof.
  cbv zeta. unfold authorize, payload_role. simpl user. split.
  - intros [E|E]; rewrite E; reflexivity.
  - intros N1 N2.
    destruct (JS.includes _ _) eqn:I; [exfalso|reflexivity].
    apply (includes_scalars [JStr "recruiter"; JStr "admin"]) in I.
    destruct (role u) as [r|]; simpl in I.
    + destruct I as [[= <-]|[[= <-]|[]]]; congruence.
    + destruct I as [|[|[]]]; discriminate.
Qed.

(** C2.  The gate POST /api/jobs registers, [authorize(['recruiter',
    'admin'])], sends every authenticated request to the error handler
    with 403, the recruiter's and the administrator's too: the rest
    parameter holds one array, which no role string is an element of. *)
Theorem jobs_create_gate_rejects_every_role (req : Request) (u : Payload) :
  jobs_create_gate (set_user req u)
  = NextErr (CustomError "Access denied: insufficient role" 403)
  /\ terminal (jobs_create_gate (set_user req u))
     = Some (mkResponse 403
               (JObject [("success", JV (JBool false));
                         ("message",
                          JV (JStr "Access denied: insufficient role"))])).
Proof.
  unfold jobs_create_gate, authorize, set_user. cbn [user].
  change (JS.includes [ArgArr [JStr "recruiter"; JStr "admin"]]
                      (payload_role u))
    with false.
  split; reflexivity.
Qed.

(** ** The error handler *)

(** The body of every answer of the error handler has the uniform shape. *)
Lemma errorHandler_body (e : JsError) :
  uniform_error_body (body (errorHandler e)).
Proof. unfold uniform_error_body, errorHandler. simpl. eauto. Qed.

(** Its status is the one the error carries, 500 when it carries none. *)
Lemma errorHandler_status (e : JsError) :
  (statusCode e = None -> status (errorHandler e) = 500)
  /\ (forall n, statusCode e = Some n -> n <> 0 -> status (errorHandler e) = n).
Proof.
  unfold errorHandler; simpl. split.
  - now intros ->.
  - intros n -> N. destruct (Z.eqb_spec n 0); congruence.
Qed.

(** ** The auth gate *)

(** Two facts on [append]. *)
Lemma append_empty_r (s : string) : (s ++ "")%string = s.
Proof. induction s as [|c s IH]; simpl; congruence. Qed.

Lemma append_snoc (s : string) (c : ascii) (t : string) :
  ((s ++ String c "") ++ t)%string = (s ++ String c t)%string.
Proof. induction s as [|d s IH]; simpl; congruence. Qed.

(** The first piece of a split is the text before the first space. *)
Lemma split_space_acc_head (s cur : string) :
  exists tl, JS.split_space_acc cur s = (cur ++ up_to_space s)%string :: tl.
Proof.
  revert cur. induction s as [|c r IH]; intro cur; simpl.
  - exists []. now rewrite append_empty_r.
  - destruct (Ascii.eqb c " ").
    + eexists. now rewrite append_empty_r.
    + destruct (IH (cur ++ String c "")%string) as [tl E].
      exists tl. now rewrite E, append_snoc.
Qed.

(** A header that starts with ["Bearer "] is that prefix and the rest. *)
Lemma prefix_Bearer (h : string) :
  String.prefix "Bearer " h = true -> h = ("Bearer " ++ drop 7 h)%string.
Proof.
  intro P.
  do 7 (destruct h as [|? h]; [discriminate P|];
        cbn [String.prefix] in P;
        match type of P with
        | (if ascii_dec ?a ?b then _ else _) = true =>
            destruct (ascii_dec a b) as [<-|]; [|discriminate P]
        end).
  reflexivity.
Qed.

(** [authHeader.split(' ')[1]] is the bearer token. *)
Lemma split_Bearer (h : string) :
  String.prefix "Bearer " h = true ->
  nth_error (JS.split_space h) 1 = Some (up_to_space (drop 7 h)).
Proof.
  intro P. rewrite (prefix_Bearer h P) at 1.
  generalize (drop 7 h) as r. intro r.
  unfold JS.split_space. simpl.
  destruct (split_space_acc_head r "") as [tl ->]. reflexivity.
Qed.

(** Without a bearer token the gate answers 401 whatever the token
    library, the secret and the clock are. *)
Lemma authMiddleware_no_token `{JwtLib} (JWT_SECRET : string) (now : Z)
    (req : Request) :
  bearer_token req = None ->
  authMiddleware JWT_SECRET now req
  = Responded (mkResponse 401 (msg_body "No token, authorization denied")).
Proof.
  unfold bearer_token, authMiddleware, JS.startsWith.
  destruct (header_Authorization req) as [h|]; [|reflexivity].
  destruct (String.prefix "Bearer " h); [discriminate|].
  now rewrite orb_true_r.
Qed.

(** With a bearer token the gate does what the verification says. *)
Lemma authMiddleware_token `{JwtLib} (JWT_SECRET : string) (now : Z)
    (req : Request) (token : string) :
  bearer_token req = Some token ->
  authMiddleware JWT_SECRET now req
  = match jwt_verify token JWT_SECRET now with
    | Some decoded => Next (set_user req decoded)
    | None => Responded (mkResponse 401 (msg_body "Token is not valid"))
    end.
Proof.
  unfold bearer_token, authMiddleware, JS.startsWith.
  destruct (header_Authorization req) as [h|]; [|discriminate].
  destruct (String.prefix "Bearer " h) eqn:P; [|discriminate].
  intros [= <-].
  assert (JS.truthy (JStr h) = true) as ->.
  { destruct h; [discriminate P|reflexivity]. }
  now rewrite (split_Bearer h P).
Qed.


(** C7.  Without a header that starts with ["Bearer "] the gate answers
    401 whatever the token library, the secret and the clock are, so
    before any verification; with a bearer token that does not verify it
    answers 401; with one that verifies it attaches the decoded claims to
    the request, leaves the rest of the request as it was, and passes
    control on. *)
Theorem auth_gate_cases `{JwtLib} (JWT_SECRET : string) (now : Z)
    (req : Request) :
  (bearer_token req = None ->
   forall (L : JwtLib) (k : string) (t : Z),
     @authMiddleware L k t req
     = Responded (mkResponse 401 (msg_body "No token, authorization denied")))
  /\ (forall token,
        bearer_token req = Some token ->
        jwt_verify token JWT_SECRET now = None ->
        authMiddleware JWT_SECRET now req
        = Responded (mkResponse 401 (msg_body "Token is not valid")))
  /\ (forall token decoded,
        bearer_token req = Some token ->
        jwt_verify token JWT_SECRET now = Some decoded ->
        exists req',
          authMiddleware JWT_SECRET now req = Next req'
          /\ user req' = Some decoded
          /\ header_Authorization req' = header_Authorization req
          /\ params_id req' = params_id req
          /\ query req' = query req
          /\ body_of req' = body_of req).
Proof.
  split; [|split].
  - intros N L k t. now apply authMiddleware_no_token.
  - intros token B V. now rewrite (authMiddleware_token _ _ _ token B), V.
  - intros token decoded B V.
    rewrite (authMiddleware_token _ _ _ token B), V.
    exists (set_user req decoded). repeat split.
Qed.

(** ** The user collection *)

(** A save that succeeds validated the document, ran the hook and
    appended the result. *)
Lemma save_inr `{BcryptLib} (c c' : User.collection) (d d' : User.doc)
    (salt : string) :
  User.save c d salt = inr (c', d') ->
  User.validation_failures d = []
  /\ d' = User.pre_save salt d
  /\ c' = c ++ [d'].
Proof.
  unfold User.save.
  destruct (User.validation_failures d); [|discriminate].
  destruct (existsb _ c); [discriminate|].
  intros [= <- <-]. auto.
Qed.

(** A document inserted under an email nobody had is the one a lookup
    by that email finds. *)
Lemma findOne_email_inserted (c : User.collection) (d : User.doc)
    (e : string) :
  User.findOne_email c e = None ->
  User.email d = User.cast_email e ->
  User.findOne_email (c ++ [d]) e = Some d.
Proof.
  unfold User.findOne_email. intros N E.
  induction c as [|x c IH]; simpl in *.
  - now rewrite E, String.eqb_refl.
  - destruct (User.email x =? User.cast_email e)%string; [discriminate|auto].
Qed.

(** What a successful signup through src/routes/auth.js did. *)
Lemma signup1_inv `{ValidatorLib} `{BcryptLib} (users users' : User.collection)
    (b : SignupBody) (newId salt hook_salt : string) (r : Response) :
  AuthRoutes1.signup users b newId salt hook_salt = (users', Responded r) ->
  signup_valid b = true
  /\ User.findOne_email users (signup_email b) = None
  /\ users' = users ++
       [User.mk newId (Str.trim (signup_name b))
                (User.cast_email (signup_email b))
                (bcrypt_hash (bcrypt_hash (signup_password b) salt) hook_salt)
                "candidate"]
  /\ r = mkResponse 201
           (JObject [("msg", JV (JStr "User registered successfully"))]).
Proof.
  unfold AuthRoutes1.signup.
  destruct (signup_valid b); [|discriminate]. simpl negb. cbv iota.
  destruct (User.findOne_email users (signup_email b)); [discriminate|].
  destruct (User.save _ _ _) as [err|[c' d']] eqn:S; [discriminate|].
  intros [= <- <-]. apply save_inr in S as (_ & -> & ->).
  repeat split.
Qed.

(** What a successful signup through part_001 did. *)
Lemma signup2_inv `{ValidatorLib} `{BcryptLib} `{JwtLib}
    (users users' : User.collection) (b : SignupBody)
    (newId hook_salt secret : string) (now : Z) (r : Response) :
  AuthRoutes2.signup users b newId hook_salt secret now
  = (users', Responded r) ->
  let saved :=
    User.mk newId (Str.trim (signup_name b))
            (User.cast_email (signup_email b))
            (bcrypt_hash (signup_password b) hook_salt)
            (User.cast_role (AuthRoutes2.assignedRole (signup_role b))) in
  signup_valid b = true
  /\ User.findOne_email users (signup_email b) = None
  /\ users' = users ++ [saved]
  /\ r = mkResponse 201
           (JObject [("token",
                      JV (JStr (jwt_sign_1h newId (Some (User.role saved))
                                            secret now)));
                     ("user", AuthRoutes2.user_json saved)]).
Proof.
  unfold AuthRoutes2.signup.
  destruct (signup_valid b); [|discriminate]. simpl negb. cbv iota.
  destruct (User.findOne_email users (signup_email b)); [discriminate|].
  destruct (User.save _ _ _) as [err|[c' d']] eqn:S; [discriminate|].
  intros [= <- <-]. apply save_inr in S as (_ & -> & ->).
  repeat split.
Qed.

(** What a successful login through src/routes/auth.js found and
    answered. *)
Lemma login1_inv `{BcryptLib} `{JwtLib} (users : User.collection)
    (b : LoginBody) (secret : string) (now : Z) (r : Response) :
  AuthRoutes1.login users b secret now = Responded r ->
  exists u pw,
    User.findOne_email users (login_email b) = Some u
    /\ login_password b = JStr pw
    /\ bcrypt_compare pw (User.password u) = true
    /\ r = res_json
             (JObject [("token",
                        JV (JStr (jwt_sign_1h (User._id u) None secret now)));
                       ("user", JObject
                          [("id", JV (JStr (User._id u)));
                           ("name", JV (JStr (User.name u)));
                           ("email", JV (JStr (User.email u)))])]).
Proof.
  unfold AuthRoutes1.login, Bcrypt.compare.
  destruct (User.findOne_email users (login_email b)) as [u|]; [|discriminate].
  destruct (login_password b) as [| | | |pw]; try discriminate.
  destruct (bcrypt_compare _ _) eqn:M; [|discriminate].
  intros [= <-]. exists u, pw. auto.
Qed.

(** What a successful login through part_001 found and answered. *)
Lemma login2_inv `{BcryptLib} `{JwtLib} (users : User.collection)
    (b : LoginBody) (secret : string) (now : Z) (r : Response) :
  AuthRoutes2.login users b secret now = Responded r ->
  exists u pw,
    User.findOne_email users (login_email b) = Some u
    /\ login_password b = JStr pw
    /\ bcrypt_compare pw (User.password u) = true
    /\ r = res_json
             (JObject [("token",
                        JV (JStr (jwt_sign_1h (User._id u)
                                              (Some (User.role u)) secret now)));
                       ("user", AuthRoutes2.user_json u)]).
Proof.
  unfold AuthRoutes2.login, User.matchPassword, Bcrypt.compare.
  destruct (User.findOne_email users (login_email b)) as [u|]; [|discriminate].
  destruct (login_password b) as [| | | |pw]; try discriminate.
  destruct (bcrypt_compare _ _) eqn:M; [|discriminate].
  intros [= <-]. exists u, pw. auto.
Qed.

(** ** Tokens *)

(** A token signed for one hour verifies, under the same secret, at
    every clock from its issue until its expiry, and yields the claims
    that were signed. *)
Lemma verify_signed `{JwtLib} (uid : string) (r : option string)
    (secret : string) (now t : Z) :
  now <= t < now + 3600 ->
  jwt_verify (jwt_sign_1h uid r secret now) secret t
  = Some (mkPayload uid r now (now + 3600)).
Proof.
  intro B. unfold jwt_verify, jwt_sign_1h.
  rewrite jwt_decode_encode. simpl exp.
  destruct (Z.leb_spec (now + 3600) t); [lia|reflexivity].
Qed.

(** Past its expiry it does not. *)
Lemma verify_expired `{JwtLib} (uid : string) (r : option string)
    (secret : string) (now t : Z) :
  now + 3600 <= t ->
  jwt_verify (jwt_sign_1h uid r secret now) secret t = None.
Proof.
  intro B. unfold jwt_verify, jwt_sign_1h.
  rewrite jwt_decode_encode. simpl exp.
  destruct (Z.leb_spec (now + 3600) t); [reflexivity|lia].
Qed.

(** C5, as the code has it.  A token of the role-aware routes (signup
    and login of part_001) verifies from its issue until its expiry one
    hour later and yields the subject id and the role of the identity;
    a token of the login of src/routes/auth.js verifies likewise and
    yields the subject id and no role. *)
Theorem issued_token_verifies `{ValidatorLib} `{BcryptLib} `{JwtLib}
    (secret : string) (now t : Z) :
  now <= t < now + 3600 ->
  (forall users users' b newId salt r,
      AuthRoutes2.signup users b newId salt secret now
      = (users', Responded r) ->
      exists u tok,
        In u users' /\ User._id u = newId
        /\ response_token r = Some tok
        /\ jwt_verify tok secret t
           = Some (mkPayload (User._id u) (Some (User.role u))
                             now (now + 3600)))
  /\ (forall users b r,
        AuthRoutes2.login users b secret now = Responded r ->
        exists u tok,
          User.findOne_email users (login_email b) = Some u
          /\ response_token r = Some tok
          /\ jwt_verify tok secret t
             = Some (mkPayload (User._id u) (Some (User.role u))
                               now (now + 3600)))
  /\ (forall users b r,
        AuthRoutes1.login users b secret now = Responded r ->
        exists u tok,
          User.findOne_email users (login_email b) = Some u
          /\ response_token r = Some tok
          /\ jwt_verify tok secret t
             = Some (mkPayload (User._id u) None now (now + 3600))).
Proof.
  intro B. repeat split.
  - intros users users' b newId salt r S.
    apply signup2_inv in S as (_ & _ & -> & ->).
    eexists. eexists. split; [apply in_or_app; right; left; reflexivity|].
    split; [reflexivity|]. split; [reflexivity|].
    now apply verify_signed.
  - intros users b r L. apply login2_inv in L as (u & pw & F & _ & _ & ->).
    exists u. eexists. split; [exact F|]. split; [reflexivity|].
    now apply verify_signed.
  - intros users b r L. apply login1_inv in L as (u & pw & F & _ & _ & ->).
    exists u. eexists. split; [exact F|]. split; [reflexivity|].
    now apply verify_signed.
Qed.

(** ** Where failures go *)

(** Case analysis on the tests a handler makes before it settles on an
    outcome. *)
Ltac handler_cases :=
  repeat match goal with
         | |- ok_or_forwarded (snd (if ?c then _ else _)) => destruct c
         | |- ok_or_forwarded (snd (match ?x with _ => _ end)) => destruct x
         | |- ok_or_forwarded (if ?c then _ else _) => destruct c
         | |- ok_or_forwarded (match ?x with _ => _ end) => destruct x
         end;
  simpl; auto.

(** A failure that was forwarded is answered in the uniform shape. *)
Lemma ok_or_forwarded_terminal {R : Type} (o : outcome R) (r : Response) :
  ok_or_forwarded o -> terminal o = Some r ->
  status r = 200 \/ status r = 201 \/ uniform_error_body (body r).
Proof.
  destruct o as [r'|e|req]; simpl; intros OK [= <-].
  - tauto.
  - right. right. apply errorHandler_body.
Qed.

(** The auth handlers answer successes themselves and forward the rest. *)
Lemma auth_handlers_forward `{ValidatorLib} `{BcryptLib} `{JwtLib}
    (users : User.collection) (sb : SignupBody) (lb : LoginBody)
    (newId salt hook_salt secret : string) (now : Z) :
  ok_or_forwarded (snd (AuthRoutes1.signup users sb newId salt hook_salt))
  /\ ok_or_forwarded (AuthRoutes1.login users lb secret now)
  /\ ok_or_forwarded (snd (AuthRoutes2.signup users sb newId hook_salt
                                              secret now))
  /\ ok_or_forwarded (AuthRoutes2.login users lb secret now).
Proof.
  unfold AuthRoutes1.signup, AuthRoutes1.login, AuthRoutes2.signup,
    AuthRoutes2.login.
  repeat split; handler_cases.
Qed.

(** So do the job handlers. *)
Lemma job_handlers_forward `{JobStoreLib} (keep : jsval -> jsval -> jsval)
    (jobs : Job.collection) (newId : string) (now : Z) (req : Request) :
  ok_or_forwarded (snd (JobRoutes.create jobs newId now req))
  /\ ok_or_forwarded (JobRoutes.list jobs req)
  /\ ok_or_forwarded (JobRoutes.get jobs req)
  /\ ok_or_forwarded (snd (JobRoutes.put keep jobs req))
  /\ ok_or_forwarded (snd (JobRoutes.delete jobs req)).
Proof.
  unfold JobRoutes.create, JobRoutes.list, JobRoutes.get, JobRoutes.put,
    JobRoutes.delete.
  repeat split; handler_cases.
Qed.

(** C8, as the code has it.  Every error passed to [next] ends in the
    error handler, whose answer has the body [{success: false, message}]
    and the status the error carries, 500 when it carries none; the
    failures of the route handlers and of [authorize] are all passed to
    [next].  The auth gate answers its 401 itself, with the body [{msg}],
    and [authorizeRoles] its 403, with the body [{message}]. *)
Theorem forwarded_errors_uniform `{ValidatorLib} `{BcryptLib} `{JwtLib}
    `{JobStoreLib} :
  (forall e : JsError,
      terminal (@NextErr unit e) = Some (errorHandler e)
      /\ uniform_error_body (body (errorHandler e))
      /\ (statusCode e = None -> status (errorHandler e) = 500)
      /\ (forall n, statusCode e = Some n -> n <> 0 ->
                    status (errorHandler e) = n))
  /\ (forall users sb lb newId salt hook_salt secret now,
        ok_or_forwarded (snd (AuthRoutes1.signup users sb newId salt hook_salt))
        /\ ok_or_forwarded (AuthRoutes1.login users lb secret now)
        /\ ok_or_forwarded (snd (AuthRoutes2.signup users sb newId hook_salt
                                                    secret now))
        /\ ok_or_forwarded (AuthRoutes2.login users lb secret now))
  /\ (forall keep jobs newId now req,
        ok_or_forwarded (snd (JobRoutes.create jobs newId now req))
        /\ ok_or_forwarded (JobRoutes.list jobs req)
        /\ ok_or_forwarded (JobRoutes.get jobs req)
        /\ ok_or_forwarded (snd (JobRoutes.put keep jobs req))
        /\ ok_or_forwarded (snd (JobRoutes.delete jobs req)))
  /\ (forall allowedRoles req, ok_or_forwarded (authorize allowedRoles req))
  /\ (forall secret now req,
        bearer_token req = None ->
        terminal (authMiddleware secret now req)
        = Some (mkResponse 401 (msg_body "No token, authorization denied")))
  /\ (forall secret now req token,
        bearer_token req = Some token ->
        jwt_verify token secret now = None ->
        terminal (authMiddleware secret now req)
        = Some (mkResponse 401 (msg_body "Token is not valid")))
  /\ (forall allowedRoles req u,
        JS.includes allowedRoles (payload_role u) = false ->
        terminal (authorizeRoles allowedRoles (set_user req u))
        = Some (mkResponse 403
                  (JObject [("message",
                             JV (JStr "Access denied: Unauthorized role"))]))).
Proof.
  split; [|split; [|split; [|split; [|split; [|split]]]]].
  - intro e. split; [reflexivity|]. split; [apply errorHandler_body|].
    apply errorHandler_status.
  - intros. apply auth_handlers_forward.
  - intros. apply job_handlers_forward.
  - intros allowedRoles req. unfold authorize. handler_cases.
  - intros secret now req N. now rewrite authMiddleware_no_token.
  - intros secret now req token B V.
    now rewrite (authMiddleware_token _ _ _ token B), V.
  - intros allowedRoles req u I. unfold authorizeRoles, set_user.
    cbn [user]. now rewrite I.
Qed.

(** ** Signup and login *)

(** The role clamp, by cases on the requested value. *)
Lemma assignedRole_cases (requested : jsval) :
  (requested = JStr "candidate" \/ requested = JStr "recruiter" ->
   AuthRoutes2.assignedRole requested = requested)
  /\ (requested <> JStr "candidate" -> requested <> JStr "recruiter" ->
      AuthRoutes2.assignedRole requested = JStr "candidate").
Proof.
  unfold AuthRoutes2.assignedRole.
  change [ArgVal (JStr "candidate"); ArgVal (JStr "recruiter")]
    with (map ArgVal [JStr "candidate"; JStr "recruiter"]).
  destruct (JS.includes _ requested) eqn:I.
  - apply includes_scalars in I. split; [reflexivity|].
    intros N1 N2. destruct I as [<-|[<-|[]]]; congruence.
  - split; [|reflexivity].
    intro E. assert (In requested [JStr "candidate"; JStr "recruiter"]) as M.
    { destruct E as [->| ->]; simpl; auto. }
    apply includes_scalars in M. congruence.
Qed.

(** C3.  After a successful signup through part_001 the stored identity
    has the requested role when that is ['candidate'] or ['recruiter'],
    and ['candidate'] for every other requested value, ['admin'] and an
    absent role among them; the response reports the stored identity. *)
Theorem signup_role_clamped `{ValidatorLib} `{BcryptLib} `{JwtLib}
    (users users' : User.collection) (b : SignupBody)
    (newId salt secret : string) (now : Z) (r : Response) :
  AuthRoutes2.signup users b newId salt secret now = (users', Responded r) ->
  exists u,
    User.findOne_email users' (signup_email b) = Some u
    /\ User._id u = newId
    /\ json_field "user" (body r) = Some (AuthRoutes2.user_json u)
    /\ (signup_role b = JStr "candidate" -> User.role u = "candidate")
    /\ (signup_role b = JStr "recruiter" -> User.role u = "recruiter")
    /\ (signup_role b <> JStr "candidate" ->
        signup_role b <> JStr "recruiter" ->
        User.role u = "candidate").
Proof.
  intro S. apply signup2_inv in S as (_ & F & -> & ->).
  eexists. split; [apply findOne_email_inserted; [exact F|reflexivity]|].
  split; [reflexivity|]. split; [reflexivity|]. cbn [User.role].
  destruct (assignedRole_cases (signup_role b)) as [A1 A2].
  repeat split.
  - intro E. rewrite A1 by auto. now rewrite E.
  - intro E. rewrite A1 by auto. now rewrite E.
  - intros N1 N2. now rewrite A2.
Qed.


(** The login validates nothing: a password that is missing or no
    string reaches bcryptjs, which refuses it, and the error, which
    carries no status, goes to the error handler. *)
Lemma login_non_string_password `{BcryptLib} `{JwtLib}
    (users : User.collection) (b : LoginBody) (secret : string) (now : Z)
    (u : User.doc) :
  User.findOne_email users (login_email b) = Some u ->
  (forall pw, login_password b <> JStr pw) ->
  let refused :=
    mkResponse 500
      (JObject [("success", JV (JBool false));
                ("message",
                 JV (JStr ("Illegal arguments: "
                           ++ JS.typeof (login_password b) ++ ", string")))]) in
  terminal (AuthRoutes1.login users b secret now) = Some refused
  /\ terminal (AuthRoutes2.login users b secret now) = Some refused.
Proof.
  unfold AuthRoutes1.login, AuthRoutes2.login, User.matchPassword,
    Bcrypt.compare.
  intros F P. rewrite F.
  destruct (login_password b) as [| | | |pw]; try (split; reflexivity).
  now destruct (P pw).
Qed.

(** C10.  The body of a successful signup or login names a token and a
    user; the token is signed over the id (and role) of the stored
    identity, the user object holds its id, name, email and (in part_001)
    role and nothing else, and no property called [password] occurs
    anywhere in the body. *)
Theorem responses_expose_no_password `{ValidatorLib} `{BcryptLib} `{JwtLib}
    (secret : string) (now : Z) :
  (forall users users' b newId salt r,
      AuthRoutes2.signup users b newId salt secret now
      = (users', Responded r) ->
      exists u,
        In u users'
        /\ json_keys (body r) = ["token"; "user"]
        /\ response_token r
           = Some (jwt_sign_1h (User._id u) (Some (User.role u)) secret now)
        /\ json_field "user" (body r)
           = Some (JObject [("id", JV (JStr (User._id u)));
                            ("name", JV (JStr (User.name u)));
                            ("email", JV (JStr (User.email u)));
                            ("role", JV (JStr (User.role u)))])
        /\ json_mentions "password" (body r) = false)
  /\ (forall users b r,
        AuthRoutes2.login users b secret now = Responded r ->
        exists u,
          In u users
          /\ json_keys (body r) = ["token"; "user"]
          /\ response_token r
             = Some (jwt_sign_1h (User._id u) (Some (User.role u)) secret now)
          /\ json_field "user" (body r)
             = Some (JObject [("id", JV (JStr (User._id u)));
                              ("name", JV (JStr (User.name u)));
                              ("email", JV (JStr (User.email u)));
                              ("role", JV (JStr (User.role u)))])
          /\ json_mentions "password" (body r) = false)
  /\ (forall users b r,
        AuthRoutes1.login users b secret now = Responded r ->
        exists u,
          In u users
          /\ json_keys (body r) = ["token"; "user"]
          /\ response_token r
             = Some (jwt_sign_1h (User._id u) None secret now)
          /\ json_field "user" (body r)
             = Some (JObject [("id", JV (JStr (User._id u)));
                              ("name", JV (JStr (User.name u)));
                              ("email", JV (JStr (User.email u)))])
          /\ json_mentions "password" (body r) = false)
  /\ (forall users users' b newId salt hook_salt r,
        AuthRoutes1.signup users b newId salt hook_salt
        = (users', Responded r) ->
        json_keys (body r) = ["msg"]
        /\ json_mentions "password" (body r) = false).
Proof.
  assert (forall (c : User.collection) e u,
             User.findOne_email c e = Some u -> In u c) as Fin.
  { intros c e u F. now apply find_some in F as [I _]. }
  split; [|split; [|split]].
  - intros users users' b newId salt r S.
    apply signup2_inv in S as (_ & _ & -> & ->).
    eexists. split; [apply in_or_app; right; left; reflexivity|].
    repeat split.
  - intros users b r L. apply login2_inv in L as (u & pw & F & _ & _ & ->).
    exists u. split; [now apply Fin in F|]. repeat split.
  - intros users b r L. apply login1_inv in L as (u & pw & F & _ & _ & ->).
    exists u. split; [now apply Fin in F|]. repeat split.
  - intros users users' b newId salt hook_salt r S.
    apply signup1_inv in S as (_ & _ & _ & ->). split; reflexivity.
Qed.

(** A password hashed twice no longer matches its plaintext. *)
Lemma compare_double_hash `{BcryptLib} (pw salt hook_salt : string) :
  bcrypt_compare pw (bcrypt_hash (bcrypt_hash pw salt) hook_salt) = false.
Proof.
  destruct (bcrypt_compare pw _) eqn:M; [|reflexivity].
  apply bcrypt_compare_only in M. symmetry in M.
  now apply bcrypt_hash_not_plain in M.
Qed.

(** C1 on src/routes/auth.js.  Its signup hashes the password and the
    pre-save hook of models/User.js hashes the hash again: after a
    successful signup (201) the stored password is the hash of a hash,
    and the login with the same email and the original password is
    answered 400, ['Invalid credentials']. *)
Theorem signup1_then_login_rejected `{ValidatorLib} `{BcryptLib} `{JwtLib}
    (users users' : User.collection) (b : SignupBody)
    (newId salt hook_salt secret : string) (now : Z) (r : Response) :
  AuthRoutes1.signup users b newId salt hook_salt = (users', Responded r) ->
  status r = 201
  /\ (exists u,
        User.findOne_email users' (signup_email b) = Some u
        /\ User.password u
           = bcrypt_hash (bcrypt_hash (signup_password b) salt) hook_salt)
  /\ terminal (AuthRoutes1.login users'
                 (mkLogin (signup_email b) (signup_password b)) secret now)
     = Some invalid_credentials.
Proof.
  intro S. apply signup1_inv in S as (_ & F & -> & ->).
  pose proof (findOne_email_inserted users
                (User.mk newId (Str.trim (signup_name b))
                   (User.cast_email (signup_email b))
                   (bcrypt_hash (bcrypt_hash (signup_password b) salt)
                                hook_salt)
                   "candidate")
                (signup_email b) F eq_refl) as F'.
  split; [reflexivity|]. split.
  - eexists. split; [exact F'|reflexivity].
  - unfold AuthRoutes1.login, mkLogin, Bcrypt.compare.
    cbn [login_email login_password].
    rewrite F'. cbn [User.password]. now rewrite compare_double_hash.
Qed.

(** The same signup on part_001, which leaves the hashing to the model,
    with bcrypt as an ideal hash: the stored password is a hash, never
    the plaintext; the login with the same email and the original
    password is answered 200 with a token; with any other password, so
    with any one-character mutation, it is answered 400, ['Invalid
    credentials']. *)
Lemma signup2_then_login2 `{ValidatorLib} `{BcryptLib} `{JwtLib}
    (users users' : User.collection) (b : SignupBody)
    (newId salt secret : string) (now now' : Z) (r : Response) :
  AuthRoutes2.signup users b newId salt secret now = (users', Responded r) ->
  exists u,
    User.findOne_email users' (signup_email b) = Some u
    /\ User.password u <> signup_password b
    /\ (exists r', AuthRoutes2.login users'
                     (mkLogin (signup_email b) (signup_password b)) secret now'
                   = Responded r'
                   /\ status r' = 200
                   /\ response_token r'
                      = Some (jwt_sign_1h newId (Some (User.role u))
                                          secret now'))
    /\ (forall pw',
           pw' <> signup_password b ->
           terminal (AuthRoutes2.login users'
                       (mkLogin (signup_email b) pw') secret now')
           = Some invalid_credentials).
Proof.
  intro S. apply signup2_inv in S as (_ & F & -> & ->).
  pose proof (findOne_email_inserted users
                (User.mk newId (Str.trim (signup_name b))
                   (User.cast_email (signup_email b))
                   (bcrypt_hash (signup_password b) salt)
                   (User.cast_role
                      (AuthRoutes2.assignedRole (signup_role b))))
                (signup_email b) F eq_refl) as F'.
  eexists. split; [exact F'|]. cbn [User.password User.role]. split.
  { apply bcrypt_hash_not_plain. }
  split.
  - unfold AuthRoutes2.login, User.matchPassword, mkLogin, Bcrypt.compare.
    cbn [login_email login_password]. rewrite F'. cbn [User.password].
    rewrite bcrypt_compare_hash. eexists. split; [reflexivity|].
    split; reflexivity.
  - intros pw' N.
    unfold AuthRoutes2.login, User.matchPassword, mkLogin, Bcrypt.compare.
    cbn [login_email login_password]. rewrite F'. cbn [User.password].
    destruct (bcrypt_compare pw' _) eqn:M; [|reflexivity].
    apply bcrypt_compare_only in M. contradiction.
Qed.

(** A lookup that finds nobody: no stored email is the one asked for. *)
Lemma findOne_email_None (c : User.collection) (e : string) (x : User.doc) :
  User.findOne_email c e = None -> In x c ->
  (User.email x =? User.cast_email e)%string = false.
Proof.
  unfold User.findOne_email. intros N I.
  exact (find_none _ _ N x I).
Qed.

(** When part_001 accepts a signup: the request passes the route's
    checks, the name and the email are not blank, nobody has the email,
    and the fresh id is fresh. *)
Lemma signup2_succeeds `{ValidatorLib} `{BcryptLib} `{JwtLib}
    (users : User.collection) (b : SignupBody)
    (newId salt secret : string) (now : Z) :
  signup_valid b = true ->
  Str.trim (signup_name b) <> "" ->
  User.cast_email (signup_email b) <> "" ->
  User.findOne_email users (signup_email b) = None ->
  (forall x, In x users -> User._id x <> newId) ->
  exists users' r,
    AuthRoutes2.signup users b newId salt secret now = (users', Responded r)
    /\ status r = 201.
Proof.
  intros V Nn Ne F Fresh. unfold AuthRoutes2.signup. rewrite V, F.
  cbn [negb]. unfold User.save, User.validation_failures, User.new.
  cbn [User.name User.email User.password User.role].
  apply String.eqb_neq in Nn, Ne. rewrite Nn, Ne.
  unfold signup_valid in V. apply andb_true_iff in V as [_ L].
  unfold Validator.isLength_min in L. cbn [Validator.toString] in L.
  apply Nat.leb_le in L.
  assert ((signup_password b =? "")%string = false) as P0.
  { apply String.eqb_neq. intros E. rewrite E in L. simpl in L. lia. }
  assert ((String.length (signup_password b) <? 6)%nat = false) as P6.
  { apply Nat.ltb_ge. exact L. }
  rewrite P0, P6.
  assert (existsb (String.eqb
                     (User.cast_role
                        (AuthRoutes2.assignedRole (signup_role b))))
                  ["admin"; "recruiter"; "candidate"] = true) as R.
  { unfold AuthRoutes2.assignedRole.
    destruct (JS.includes _ (signup_role b)) eqn:I; [|reflexivity].
    apply (includes_scalars [JStr "candidate"; JStr "recruiter"]) in I.
    destruct I as [<-|[<-|[]]]; reflexivity. }
  rewrite R. cbn [app].
  destruct (existsb _ users) eqn:D.
  - exfalso. apply existsb_exists in D as [x [I D]].
    cbn [User.pre_save User._id User.email] in D.
    apply orb_true_iff in D as [D|D].
    + apply String.eqb_eq in D. now apply (Fresh x I).
    + rewrite (findOne_email_None users (signup_email b) x F I) in D.
      discriminate.
  - eexists. eexists. split; reflexivity.
Qed.

(** ** The job collection *)

(** [find] finds nothing where the test fails everywhere. *)
Lemma find_all_false {A : Type} (f : A -> bool) (l : list A) :
  (forall x, In x l -> f x = false) -> find f l = None.
Proof.
  induction l as [|a l IH]; simpl; intro N; [reflexivity|].
  rewrite (N a) by auto. apply IH. auto.
Qed.

(** Distinct keys: two elements with the same key are the same. *)
Lemma NoDup_map_eq {A B : Type} (f : A -> B) (l : list A) (x y : A) :
  NoDup (map f l) -> In x l -> In y l -> f x = f y -> x = y.
Proof.
  induction l as [|a l IH]; simpl; [tauto|].
  intros ND Hx Hy E. inversion ND as [|? ? Na ND']; subst.
  destruct Hx as [<-|Hx], Hy as [<-|Hy]; auto.
  - exfalso. apply Na. rewrite E. now apply in_map.
  - exfalso. apply Na. rewrite <- E. now apply in_map.
Qed.


(** [findOneAndDelete] removes nothing where the filter fails
    everywhere. *)
Lemma findOneAndDelete_all_false (jobs : Job.collection) (i u : string) :
  (forall x, In x jobs ->
     (Job._id x =? i)%string && (Job.user x =? u)%string = false) ->
  JobRoutes.findOneAndDelete jobs i u = (jobs, None).
Proof.
  induction jobs as [|a l IH]; simpl; intro N; [reflexivity|].
  rewrite (N a) by auto. rewrite IH by auto. reflexivity.
Qed.

(** What [findOneAndDelete] removes matched the filter, and the rest
    stays as it was. *)
Lemma findOneAndDelete_Some (jobs jobs' : Job.collection) (i u : string)
    (x : Job.doc) :
  JobRoutes.findOneAndDelete jobs i u = (jobs', Some x) ->
  Job._id x = i /\ Job.user x = u
  /\ exists before after, jobs = before ++ x :: after
                          /\ jobs' = before ++ after.
Proof.
  revert jobs'. induction jobs as [|a l IH]; simpl; intro jobs'.
  - discriminate.
  - destruct ((Job._id a =? i)%string && (Job.user a =? u)%string) eqn:M.
    + intros [= <- <-]. apply andb_true_iff in M as [M1 M2].
      apply String.eqb_eq in M1, M2. repeat split; auto.
      exists [], l. auto.
    + destruct (JobRoutes.findOneAndDelete l i u) as [rest found].
      intros [= <- ->].
      destruct (IH rest eq_refl) as (E1 & E2 & before & after & -> & ->).
      repeat split; auto. exists (a :: before), after. auto.
Qed.




(** A job PUT /api/jobs/:id changes is a stored job of the requester,
    and stays the requester's. *)
Lemma put_scoped `{JobStoreLib} (keep : jsval -> jsval -> jsval)
    (jobs jobs' : Job.collection) (req : Request)
    (u : Payload) (owner : string) (r : Response) :
  user req = Some u -> castObjectId (userId u) = Some owner ->
  JobRoutes.put keep jobs req = (jobs', Responded r) ->
  exists x x',
    In x jobs /\ Job.user x = owner
    /\ Job._id x' = Job._id x /\ Job.user x' = owner
    /\ jobs' = JobRoutes.replace jobs x'
    /\ r = res_json (Job.to_json x').
Proof.
  intros U C. unfold JobRoutes.put, JobRoutes.findOne. rewrite U, C.
  destruct (JobRoutes.update_valid (body_of req)); [|discriminate].
  cbn [negb].
  destruct (castObjectId (params_id req)) as [i|]; [|discriminate].
  destruct (find _ jobs) as [x|] eqn:F; [|discriminate].
  destruct (job_validate _); [discriminate|].
  intros [= <- <-]. apply find_some in F as [Ix M].
  apply andb_true_iff in M as [_ M]. apply String.eqb_eq in M.
  exists x. eexists.
  split; [exact Ix|]. split; [exact M|].
  split; [|split; [|split; [reflexivity|reflexivity]]].
  - reflexivity.
  - exact M.
Qed.

(** A job DELETE /api/jobs/:id removes is a stored job of the requester,
    and nothing else goes. *)
Lemma delete_scoped `{JobStoreLib} (jobs jobs' : Job.collection)
    (req : Request) (u : Payload) (owner : string) (r : Response) :
  user req = Some u -> castObjectId (userId u) = Some owner ->
  JobRoutes.delete jobs req = (jobs', Responded r) ->
  exists x before after,
    Job.user x = owner
    /\ jobs = before ++ x :: after /\ jobs' = before ++ after.
Proof.
  intros U C. unfold JobRoutes.delete. rewrite U, C.
  destruct (castObjectId (params_id req)) as [i|]; [|discriminate].
  destruct (JobRoutes.findOneAndDelete jobs i owner) as [rest [x|]] eqn:D;
    [|discriminate].
  intros [= <- <-].
  apply findOneAndDelete_Some in D as (_ & E & before & after & -> & ->).
  exists x, before, after. auto.
Qed.


(** ** Updating a job *)




(** C9 on src/routes/jobs.js, which merges with [||]: a body whose only
    field is [salary: 0] passes validation and is answered 200, yet the
    job keeps the salary it had. *)
Theorem put_or_ignores_zero_salary `{JobStoreLib} (jobs : Job.collection)
    (req : Request) (u : Payload) (job : Job.doc) :
  user req = Some u ->
  JobRoutes.findOne jobs (params_id req) (userId u) = inr (Some job) ->
  body_of req = mkJobBody JUndef JUndef JUndef JUndef (JNum 0) ->
  job_validate job = None ->
  JobRoutes.update_valid (body_of req) = true
  /\ JobRoutes.put JS.or jobs req
     = (JobRoutes.replace jobs job,
        Responded (mkResponse 200 (Job.to_json job))).
Proof.
  intros U F B OK. split; [rewrite B; reflexivity|].
  unfold JobRoutes.put. rewrite B, U, F.
  change (JobRoutes.update_valid
            (mkJobBody JUndef JUndef JUndef JUndef (JNum 0))) with true.
  assert (JobRoutes.assign JS.or
            (mkJobBody JUndef JUndef JUndef JUndef (JNum 0)) job = job) as ->.
  { now destruct job. }
  cbn [negb]. now rewrite OK.
Qed.

(** * Further properties *)

(** ** Signup *)



(** A signup with an empty name, an address the validator refuses or a
    password of fewer than six characters is answered 400, ['Validation
    failed'], whatever the collection holds, and stores nothing. *)
Theorem signup_invalid_rejected `{ValidatorLib} `{BcryptLib} `{JwtLib}
    (users : User.collection) (b : SignupBody)
    (newId salt hook_salt secret : string) (now : Z) :
  signup_name b = ""
  \/ isEmail (signup_email b) = false
  \/ (String.length (signup_password b) < 6)%nat ->
  AuthRoutes2.signup users b newId hook_salt secret now
  = (users, NextErr (CustomError "Validation failed" 400))
  /\ AuthRoutes1.signup users b newId salt hook_salt
     = (users, NextErr (CustomError "Validation failed" 400)).
Proof.
  intro Bad.
  assert (signup_valid b = false) as V.
  { unfold signup_valid, Validator.notEmpty, Validator.isLength_min.
    cbn [Validator.toString].
    destruct Bad as [N|[M|L]].
    - now rewrite N.
    - rewrite M. now rewrite andb_false_r.
    - apply Nat.leb_gt in L. rewrite L. now rewrite andb_false_r. }
  unfold AuthRoutes2.signup, AuthRoutes1.signup. rewrite V.
  split; reflexivity.
Qed.

(** [signup_valid] in the terms of its three checks. *)
Lemma signup_valid_iff `{ValidatorLib} (b : SignupBody) :
  signup_valid b = true
  <-> signup_name b <> "" /\ isEmail (signup_email b) = true
      /\ (6 <= String.length (signup_password b))%nat.
Proof.
  unfold signup_valid, Validator.notEmpty, Validator.isLength_min.
  cbn [Validator.toString].
  rewrite !andb_true_iff, negb_true_iff, Nat.leb_le.
  rewrite <- String.eqb_neq. tauto.
Qed.

(** part_001 accepts a signup of ASCII texts with a name that is not
    blank, an address the validator accepts and that is not blank, a
    password of six characters or more, and an email nobody has, when
    the signing secret is set: it answers 201 and the collection grows
    by one identity, with the fresh id. *)
Theorem signup2_accepts `{ValidatorLib} `{BcryptLib} `{JwtLib}
    (users : User.collection) (b : SignupBody)
    (newId salt secret : string) (now : Z) :
  plain_signup b = true ->
  secret <> "" ->
  Str.trim (signup_name b) <> "" ->
  isEmail (signup_email b) = true ->
  User.cast_email (signup_email b) <> "" ->
  (6 <= String.length (signup_password b))%nat ->
  (forall x, In x users ->
             User.email x <> User.cast_email (signup_email b)
             /\ User._id x <> newId) ->
  exists u r,
    AuthRoutes2.signup users b newId salt secret now
    = (users ++ [u], Responded r)
    /\ status r = 201
    /\ User._id u = newId
    /\ User.email u = User.cast_email (signup_email b).
Proof.
  intros _ _ Nn Em Ne L Fresh.
  assert (signup_valid b = true) as V.
  { apply signup_valid_iff. repeat split; auto.
    intro E. apply Nn. now rewrite E. }
  assert (User.findOne_email users (signup_email b) = None) as F.
  { apply find_all_false. intros x I.
    apply String.eqb_neq. now apply Fresh. }
  destruct (signup2_succeeds users b newId salt secret now V Nn Ne F)
    as (users' & r & S & St).
  { intros x I. now apply Fresh. }
  pose proof S as S'. apply signup2_inv in S' as (_ & _ & -> & _).
  eexists. exists r. split; [exact S|]. repeat split. exact St.
Qed.


(** ** The user collection *)

(** What a save that succeeds inserted collides with nothing stored. *)
Lemma save_inr_fresh `{BcryptLib} (c c' : User.collection) (d d' : User.doc)
    (salt : string) :
  User.save c d salt = inr (c', d') ->
  c' = c ++ [d']
  /\ forall x, In x c ->
       User._id x <> User._id d' /\ User.email x <> User.email d'.
Proof.
  unfold User.save.
  destruct (User.validation_failures d); [|discriminate].
  destruct (existsb _ c) eqn:D; [discriminate|].
  intros [= <- <-]. split; [reflexivity|].
  intros x I. pose proof (existsb_exists
    (fun x => (User._id x =? User._id (User.pre_save salt d))%string
              || (User.email x =? User.email (User.pre_save salt d))%string) c)
    as Ex.
  split; intro E; assert (true = false) as Abs;
    try discriminate Abs; rewrite <- D; symmetry; apply Ex; exists x;
    (split; [exact I|]); rewrite E, String.eqb_refl; auto using orb_true_r.
Qed.

Lemma NoDup_snoc {A : Type} (l : list A) (a : A) :
  NoDup l -> ~ In a l -> NoDup (l ++ [a]).
Proof.
  intros ND N. apply NoDup_app; auto.
  - constructor; [intros []|constructor].
  - intros x Ix [<-|[]]. contradiction.
Qed.

(** A save keeps ids and emails unique. *)
Lemma save_keeps_unique `{BcryptLib} (c : User.collection) (d : User.doc)
    (salt : string) :
  NoDup (map User._id c) -> NoDup (map User.email c) ->
  forall c' d', User.save c d salt = inr (c', d') ->
    NoDup (map User._id c') /\ NoDup (map User.email c').
Proof.
  intros Ni Ne c' d' S. apply save_inr_fresh in S as [-> Fr].
  rewrite !map_app. cbn [map].
  split; apply NoDup_snoc; auto; intro I;
    apply in_map_iff in I as [x [E Ix]]; apply Fr in Ix as [F1 F2]; auto.
Qed.

(** Uniqueness of ids and of emails is an invariant of the user
    collection under signup, in both generations of the route and
    whatever the outcome. *)
Theorem signup_keeps_unique `{ValidatorLib} `{BcryptLib} `{JwtLib}
    (users : User.collection) (b : SignupBody)
    (newId salt hook_salt secret : string) (now : Z) :
  NoDup (map User._id users) -> NoDup (map User.email users) ->
  (NoDup (map User._id
            (fst (AuthRoutes2.signup users b newId hook_salt secret now)))
   /\ NoDup (map User.email
               (fst (AuthRoutes2.signup users b newId hook_salt secret now))))
  /\ (NoDup (map User._id
               (fst (AuthRoutes1.signup users b newId salt hook_salt)))
      /\ NoDup (map User.email
                  (fst (AuthRoutes1.signup users b newId salt hook_salt)))).
Proof.
  intros Ni Ne. unfold AuthRoutes2.signup, AuthRoutes1.signup.
  destruct (signup_valid b); cbn [negb]; [|now auto].
  destruct (User.findOne_email users (signup_email b)); [now auto|].
  split.
  - destruct (User.save users _ hook_salt) as [err|[c' d']] eqn:S;
      [now auto|].
    exact (save_keeps_unique users _ hook_salt Ni Ne c' d' S).
  - destruct (User.save users _ hook_salt) as [err|[c' d']] eqn:S;
      [now auto|].
    exact (save_keeps_unique users _ hook_salt Ni Ne c' d' S).
Qed.

(** ** The email path *)

Lemma is_space_lower (c : ascii) : Str.is_space (Str.lower c) = Str.is_space c.
Proof. destruct c as [[] [] [] [] [] [] [] []]; reflexivity. Qed.

Lemma lower_lower (c : ascii) : Str.lower (Str.lower c) = Str.lower c.
Proof. destruct c as [[] [] [] [] [] [] [] []]; reflexivity. Qed.

Lemma toLowerCase_idempotent (s : string) :
  Str.toLowerCase (Str.toLowerCase s) = Str.toLowerCase s.
Proof.
  induction s as [|c s IH]; simpl; [reflexivity|].
  now rewrite lower_lower, IH.
Qed.

Lemma toLowerCase_empty (s : string) :
  (Str.toLowerCase s =? "")%string = (s =? "")%string.
Proof. now destruct s. Qed.

Lemma toLowerCase_trimStart (s : string) :
  Str.toLowerCase (Str.trimStart s) = Str.trimStart (Str.toLowerCase s).
Proof.
  induction s as [|c s IH]; simpl; [reflexivity|].
  rewrite is_space_lower. now destruct (Str.is_space c).
Qed.

Lemma toLowerCase_trimEnd (s : string) :
  Str.toLowerCase (Str.trimEnd s) = Str.trimEnd (Str.toLowerCase s).
Proof.
  induction s as [|c s IH]; simpl; [reflexivity|].
  rewrite <- IH, toLowerCase_empty, is_space_lower.
  now destruct ((Str.trimEnd s =? "")%string && Str.is_space c).
Qed.

Lemma trimEnd_idempotent (s : string) :
  Str.trimEnd (Str.trimEnd s) = Str.trimEnd s.
Proof.
  induction s as [|c s IH]; simpl; [reflexivity|].
  destruct ((Str.trimEnd s =? "")%string && Str.is_space c) eqn:E;
    [reflexivity|].
  simpl. now rewrite IH, E.
Qed.

(** What [trimStart] leaves does not start with a blank, and [trimEnd]
    keeps it so. *)
Definition no_leading_space (s : string) : Prop :=
  match s with
  | EmptyString => True
  | String c _ => Str.is_space c = false
  end.

Lemma trimStart_no_leading (s : string) : no_leading_space (Str.trimStart s).
Proof.
  induction s as [|c s IH]; simpl; [exact I|].
  destruct (Str.is_space c) eqn:E; [exact IH|exact E].
Qed.

Lemma trimStart_fixed (s : string) :
  no_leading_space s -> Str.trimStart s = s.
Proof. destruct s as [|c s]; simpl; [reflexivity|]. now intros ->. Qed.

Lemma trimEnd_no_leading (s : string) :
  no_leading_space s -> no_leading_space (Str.trimEnd s).
Proof.
  destruct s as [|c s]; simpl; [auto|]. intros E.
  rewrite E, andb_false_r. exact E.
Qed.

Lemma trim_idempotent (s : string) : Str.trim (Str.trim s) = Str.trim s.
Proof.
  unfold Str.trim.
  rewrite (trimStart_fixed (Str.trimEnd (Str.trimStart s))).
  - apply trimEnd_idempotent.
  - apply trimEnd_no_leading, trimStart_no_leading.
Qed.

Lemma toLowerCase_trim (s : string) :
  Str.toLowerCase (Str.trim s) = Str.trim (Str.toLowerCase s).
Proof.
  unfold Str.trim. now rewrite toLowerCase_trimEnd, toLowerCase_trimStart.
Qed.

Lemma cast_email_fixed (e : string) :
  User.cast_email (User.cast_email e) = User.cast_email e.
Proof.
  unfold User.cast_email.
  rewrite <- toLowerCase_trim, trim_idempotent.
  apply toLowerCase_idempotent.
Qed.

(** The two setters of the email path commute, and normalising an email
    twice is normalising it once: a stored email is its own normal
    form, whichever setter Mongoose runs first. *)
Theorem cast_email_idempotent (e : string) :
  User.cast_email (User.cast_email e) = User.cast_email e
  /\ Str.toLowerCase (Str.trim e) = Str.trim (Str.toLowerCase e).
Proof. split; [apply cast_email_fixed|apply toLowerCase_trim]. Qed.

(** After a signup through part_001 the identity logs in under every
    spelling of its email that normalises to the same address, the one
    the signup response reports among them. *)
Theorem login_under_any_spelling `{ValidatorLib} `{BcryptLib} `{JwtLib}
    (users users' : User.collection) (b : SignupBody)
    (newId salt secret : string) (now now' : Z) (r : Response) :
  AuthRoutes2.signup users b newId salt secret now = (users', Responded r) ->
  exists u,
    json_field "user" (body r) = Some (AuthRoutes2.user_json u)
    /\ User.cast_email (User.email u) = User.cast_email (signup_email b)
    /\ forall e,
         User.cast_email e = User.cast_email (signup_email b) ->
         exists r',
           AuthRoutes2.login users' (mkLogin e (signup_password b)) secret now'
           = Responded r'
           /\ status r' = 200
           /\ json_field "user" (body r') = Some (AuthRoutes2.user_json u).
Proof.
  intro S. apply signup2_inv in S as (_ & F & -> & ->).
  pose proof (findOne_email_inserted users
                (User.mk newId (Str.trim (signup_name b))
                   (User.cast_email (signup_email b))
                   (bcrypt_hash (signup_password b) salt)
                   (User.cast_role
                      (AuthRoutes2.assignedRole (signup_role b))))
                (signup_email b) F eq_refl) as F'.
  eexists. split; [reflexivity|]. cbn [User.email].
  split; [apply cast_email_fixed|].
  intros e E.
  unfold AuthRoutes2.login, User.matchPassword, mkLogin, Bcrypt.compare.
  cbn [login_email login_password].
  unfold User.findOne_email in *. rewrite E, F'. cbn [User.password].
  rewrite bcrypt_compare_hash. eexists. repeat split.
Qed.

(** ** Tokens and gates *)

Lemma prefix_append (p s : string) : String.prefix p (p ++ s) = true.
Proof.
  induction p as [|c p IH]; [now destruct s|].
  cbn [append String.prefix]. now destruct (ascii_dec c c).
Qed.

Lemma bearer_token_with_bearer (req : Request) (token : string) :
  bearer_token (with_bearer req token) = Some (up_to_space token).
Proof.
  unfold bearer_token, with_bearer. cbn [header_Authorization].
  now rewrite prefix_append.
Qed.

(** The gate on a request that presents a token without blanks. *)
Lemma authMiddleware_with_bearer `{JwtLib} (JWT_SECRET : string) (now : Z)
    (req : Request) (token : string) :
  up_to_space token = token ->
  authMiddleware JWT_SECRET now (with_bearer req token)
  = match jwt_verify token JWT_SECRET now with
    | Some decoded => Next (set_user (with_bearer req token) decoded)
    | None => Responded (mkResponse 401 (msg_body "Token is not valid"))
    end.
Proof.
  intro E. rewrite (authMiddleware_token _ _ _ token); [reflexivity|].
  now rewrite bearer_token_with_bearer, E.
Qed.

(** The token of a login through part_001, presented within its hour
    to GET /api/auth/protected, is answered 200 with a greeting that
    names the id of the identity that logged in. *)
Theorem protected_greets_logged_in `{BcryptLib} `{JwtLib}
    (users : User.collection) (b : LoginBody) (secret : string)
    (now t : Z) (r : Response) (token : string) (req : Request) :
  AuthRoutes2.login users b secret now = Responded r ->
  response_token r = Some token ->
  up_to_space token = token ->
  now <= t < now + 3600 ->
  exists u,
    User.findOne_email users (login_email b) = Some u
    /\ GET_protected secret t (with_bearer req token)
       = Responded
           (mkResponse 200
              (msg_body ("Hello " ++ User._id u ++ ", you're authorized!"))).
Proof.
  intros L T E W. apply login2_inv in L as (u & pw & F & _ & _ & ->).
  injection T as <-. exists u. split; [exact F|].
  unfold GET_protected.
  rewrite (authMiddleware_with_bearer _ _ _ _ E), (verify_signed _ _ _ _ _ W).
  reflexivity.
Qed.

(** The same token presented once its hour is over is answered 401,
    ['Token is not valid'], by the gate, so by every protected route,
    and the job collection stays as it was. *)
Theorem expired_token_refused `{BcryptLib} `{JwtLib} `{JobStoreLib}
    (users : User.collection) (b : LoginBody) (secret : string)
    (now t : Z) (r : Response) (token : string) (req : Request)
    (jobs : Job.collection) (keep : jsval -> jsval -> jsval) :
  AuthRoutes2.login users b secret now = Responded r ->
  response_token r = Some token ->
  up_to_space token = token ->
  now + 3600 <= t ->
  let refused : outcome unit :=
    Responded (mkResponse 401 (msg_body "Token is not valid")) in
  GET_protected secret t (with_bearer req token) = refused
  /\ JobRoutes.GET_list secret t jobs (with_bearer req token) = refused
  /\ JobRoutes.GET_id secret t jobs (with_bearer req token) = refused
  /\ JobRoutes.PUT_id secret t keep jobs (with_bearer req token)
     = (jobs, refused)
  /\ JobRoutes.DELETE_id secret t jobs (with_bearer req token)
     = (jobs, refused).
Proof.
  intros L T E W. apply login2_inv in L as (u & pw & F & _ & _ & ->).
  injection T as <-.
  unfold GET_protected, JobRoutes.GET_list, JobRoutes.GET_id,
    JobRoutes.PUT_id, JobRoutes.DELETE_id.
  rewrite (authMiddleware_with_bearer _ _ _ _ E), (verify_expired _ _ _ _ _ W).
  repeat split.
Qed.

Lemma includes_role_args (rs : list string) (v : jsval) :
  JS.includes (role_args rs) v = true <-> exists r, v = JStr r /\ In r rs.
Proof.
  unfold role_args. rewrite <- (map_map JStr ArgVal), includes_scalars.
  rewrite in_map_iff. split; intros [r [E I]]; exists r; auto.
Qed.

(** Configured with role strings, the two role gates let a request
    through exactly when its token carries one of them; a token without
    a role is turned away with 403, and a request that no auth gate
    attached an identity to ends in the error handler with 500. *)
Theorem role_gate_membership (rs : list string) (req : Request) :
  (forall u r,
      role u = Some r -> In r rs ->
      authorize (role_args rs) (set_user req u) = Next (set_user req u)
      /\ authorizeRoles (role_args rs) (set_user req u)
         = Next (set_user req u))
  /\ (forall u,
        (forall r, role u = Some r -> ~ In r rs) ->
        terminal (authorize (role_args rs) (set_user req u))
        = Some access_denied
        /\ terminal (authorizeRoles (role_args rs) (set_user req u))
           = Some (mkResponse 403
                     (JObject [("message",
                                JV (JStr "Access denied: Unauthorized role"))])))
  /\ (user req = None ->
      option_map status (terminal (authorize (role_args rs) req)) = Some 500
      /\ option_map status (terminal (authorizeRoles (role_args rs) req))
         = Some 500).
Proof.
  split; [|split].
  - intros u r R I. unfold authorize, authorizeRoles, set_user. cbn [user].
    assert (JS.includes (role_args rs) (payload_role u) = true) as ->.
    { apply includes_role_args. exists r. unfold payload_role.
      now rewrite R. }
    split; reflexivity.
  - intros u N. unfold authorize, authorizeRoles, set_user. cbn [user].
    assert (JS.includes (role_args rs) (payload_role u) = false) as ->.
    { destruct (JS.includes _ _) eqn:I; [|reflexivity].
      apply includes_role_args in I as [r [E I]]. unfold payload_role in E.
      destruct (role u) as [r'|] eqn:R; [|discriminate].
      injection E as ->. now apply (N r) in I. }
    split; reflexivity.
  - intro U. unfold authorize, authorizeRoles. rewrite U. split; reflexivity.
Qed.

(** No role string is the role of a token that carries none. *)
Lemma includes_no_role (rs : list string) (p : Payload) :
  role p = None -> JS.includes (role_args rs) (payload_role p) = false.
Proof.
  intro R. destruct (JS.includes _ _) eqn:I; [|reflexivity].
  apply includes_role_args in I as [r [E _]].
  unfold payload_role in E. rewrite R in E. discriminate.
Qed.

(** A token of the login of src/routes/auth.js, which carries no role,
    passes the auth gate within its hour and is then turned away with
    403 by every role gate configured with role strings. *)
Theorem login1_token_fails_role_gates `{BcryptLib} `{JwtLib}
    (users : User.collection) (b : LoginBody) (secret : string)
    (now t : Z) (r : Response) (token : string) (req : Request)
    (rs : list string) :
  AuthRoutes1.login users b secret now = Responded r ->
  response_token r = Some token ->
  up_to_space token = token ->
  now <= t < now + 3600 ->
  exists req',
    authMiddleware secret t (with_bearer req token) = Next req'
    /\ terminal (authorize (role_args rs) req') = Some access_denied
    /\ option_map status (terminal (authorizeRoles (role_args rs) req'))
       = Some 403.
Proof.
  intros L T E W. apply login1_inv in L as (u & pw & F & _ & _ & ->).
  injection T as <-.
  rewrite (authMiddleware_with_bearer _ _ _ _ E), (verify_signed _ _ _ _ _ W).
  eexists. split; [reflexivity|].
  unfold authorize, authorizeRoles, set_user. cbn [user].
  rewrite includes_no_role by reflexivity. split; reflexivity.
Qed.

(** ** The error handler *)

(** The error handler never answers with an empty message or with
    status 0: an error without a message gets the stock one, an error
    with one is answered with it, and a status code of 0 counts as
    none. *)
Theorem errorHandler_never_blank (e : JsError) :
  exists m,
    body (errorHandler e)
    = JObject [("success", JV (JBool false)); ("message", JV (JStr m))]
    /\ m <> ""
    /\ (message e <> "" -> m = message e)
    /\ (message e = "" -> m = "Something went wrong on the server!")
    /\ status (errorHandler e) <> 0
    /\ (statusCode e = Some 0 -> status (errorHandler e) = 500).
Proof.
  assert (status (errorHandler e) <> 0
          /\ (statusCode e = Some 0 -> status (errorHandler e) = 500)) as [S0 S5].
  { unfold errorHandler. cbn [status].
    destruct (statusCode e) as [n|]; [|split; [discriminate|reflexivity]].
    destruct (Z.eqb_spec n 0) as [->|N].
    - split; [discriminate|reflexivity].
    - split; [exact N|]. intros [= ->]. contradiction. }
  unfold errorHandler at 1. cbn [body].
  destruct (String.eqb_spec (message e) "") as [E|N].
  - exists "Something went wrong on the server!".
    split; [reflexivity|]. split; [discriminate|].
    split; [intro C; contradiction|]. split; [reflexivity|].
    split; assumption.
  - exists (message e).
    split; [reflexivity|]. split; [exact N|].
    split; [reflexivity|]. split; [intro C; contradiction|].
    split; assumption.
Qed.

(** ** Jobs: create, read, update, delete *)

(** What a create that succeeds did. *)
Lemma create_inv `{JobStoreLib} (jobs jobs' : Job.collection) (newId : string)
    (now : Z) (req : Request) (r : Response) :
  JobRoutes.create jobs newId now req = (jobs', Responded r) ->
  exists u owner,
    user req = Some u
    /\ castObjectId (userId u) = Some owner
    /\ JobRoutes.create_valid (body_of req) = true
    /\ (forall j, In j jobs -> Job._id j <> newId)
    /\ jobs' = jobs ++
         [Job.mk newId (b_title (body_of req)) (b_company (body_of req))
                 (b_description (body_of req)) (b_location (body_of req))
                 (b_salary (body_of req)) owner now]
    /\ r = mkResponse 201
             (Job.to_json
                (Job.mk newId (b_title (body_of req)) (b_company (body_of req))
                        (b_description (body_of req)) (b_location (body_of req))
                        (b_salary (body_of req)) owner now)).
Proof.
  unfold JobRoutes.create.
  destruct (JobRoutes.create_valid (body_of req)); [|discriminate].
  cbn [negb].
  destruct (user req) as [u|]; [|discriminate].
  destruct (castObjectId (userId u)) as [owner|] eqn:Co; [|discriminate].
  cbv zeta.
  match goal with
  | |- context [job_validate ?j] => destruct (job_validate j)
  end; [discriminate|].
  destruct (existsb _ jobs) eqn:D; [discriminate|].
  intros [= <- <-]. exists u, owner.
  split; [reflexivity|]. split; [exact Co|]. split; [reflexivity|].
  split; [|split; reflexivity].
  intros j I E.
  assert (existsb (fun j => (Job._id j =? newId)%string) jobs = true) as T.
  { apply existsb_exists. exists j. split; [exact I|].
    now apply String.eqb_eq. }
  congruence.
Qed.

Lemma find_app_new {A : Type} (f : A -> bool) (l : list A) (a : A) :
  (forall x, In x l -> f x = false) -> f a = true ->
  find f (l ++ [a]) = Some a.
Proof.
  induction l as [|x l IH]; simpl; intros N T.
  - now rewrite T.
  - rewrite (N x) by auto. apply IH; auto.
Qed.

(** A job that was created is read back: after a POST that was answered
    201, a GET by the new id from the same identity is answered 200 with
    the body the POST returned; the job is the requester's, it holds
    the fields of the body, and it is the only addition to the
    collection. *)
Theorem create_then_get `{JobStoreLib} (jobs jobs' : Job.collection)
    (newId : string) (now : Z) (req req2 : Request) (r : Response) :
  JobRoutes.create jobs newId now req = (jobs', Responded r) ->
  castObjectId newId = Some newId ->
  user req2 = user req ->
  params_id req2 = newId ->
  exists job owner,
    jobs' = jobs ++ [job]
    /\ (exists u, user req = Some u /\ castObjectId (userId u) = Some owner)
    /\ Job.user job = owner
    /\ Job._id job = newId
    /\ (Job.title job, Job.company job, Job.description job,
        Job.location job, Job.salary job)
       = (b_title (body_of req), b_company (body_of req),
          b_description (body_of req), b_location (body_of req),
          b_salary (body_of req))
    /\ r = mkResponse 201 (Job.to_json job)
    /\ JobRoutes.get jobs' req2 = Responded (mkResponse 200 (Job.to_json job)).
Proof.
  intros C Cid U P.
  apply create_inv in C as (u & owner & Hu & Ho & _ & Fresh & -> & ->).
  eexists. exists owner. split; [reflexivity|].
  split; [eauto|]. repeat split.
  unfold JobRoutes.get, JobRoutes.findOne. rewrite U, Hu, P, Cid, Ho.
  rewrite find_app_new; [reflexivity| |].
  - intros x I. apply Fresh in I. apply String.eqb_neq in I. now rewrite I.
  - cbn [Job._id Job.user]. now rewrite !String.eqb_refl.
Qed.

(** What a delete that succeeds did. *)
Lemma delete_inv `{JobStoreLib} (jobs jobs' : Job.collection)
    (req : Request) (r : Response) :
  JobRoutes.delete jobs req = (jobs', Responded r) ->
  exists u i owner x before after,
    user req = Some u
    /\ castObjectId (params_id req) = Some i
    /\ castObjectId (userId u) = Some owner
    /\ Job._id x = i /\ Job.user x = owner
    /\ jobs = before ++ x :: after /\ jobs' = before ++ after.
Proof.
  unfold JobRoutes.delete.
  destruct (user req) as [u|]; [|discriminate].
  destruct (castObjectId (userId u)) as [owner|] eqn:Co; [|discriminate].
  destruct (castObjectId (params_id req)) as [i|] eqn:Ci; [|discriminate].
  destruct (JobRoutes.findOneAndDelete jobs i owner) as [rest [x|]] eqn:D;
    [|discriminate].
  intros [= <- <-].
  apply findOneAndDelete_Some in D as (E1 & E2 & before & after & -> & ->).
  exists u, i, owner, x, before, after. repeat split; auto.
Qed.

(** A job that was deleted is gone: after a DELETE that was answered
    200 the collection is one job shorter, and a GET or a second DELETE
    by the same id is answered 404. *)
Theorem delete_then_gone `{JobStoreLib} (jobs jobs' : Job.collection)
    (req : Request) (r : Response) :
  NoDup (map Job._id jobs) ->
  JobRoutes.delete jobs req = (jobs', Responded r) ->
  length jobs = S (length jobs')
  /\ terminal (JobRoutes.get jobs' req) = Some job_not_found
  /\ JobRoutes.delete jobs' req
     = (jobs', NextErr (CustomError "Job not found" 404)).
Proof.
  intros ND D.
  apply delete_inv in D
    as (u & i & owner & x & before & after & U & Ci & Co & Ei & Eo & -> & ->).
  assert (forall y, In y (before ++ after) ->
            (Job._id y =? i)%string && (Job.user y =? owner)%string = false)
    as Gone.
  { intros y Iy. rewrite map_app in ND. cbn [map] in ND.
    apply NoDup_remove_2 in ND. rewrite <- map_app in ND.
    destruct (String.eqb_spec (Job._id y) i) as [E|]; [|reflexivity].
    exfalso. apply ND. rewrite Ei, <- E. now apply in_map. }
  split; [|split].
  - rewrite !length_app. simpl. lia.
  - unfold JobRoutes.get, JobRoutes.findOne. rewrite U, Ci, Co.
    now rewrite (find_all_false _ _ Gone).
  - unfold JobRoutes.delete. rewrite U, Ci, Co.
    now rewrite (findOneAndDelete_all_false _ _ _ Gone).
Qed.

(** Replacing a job keeps the ids of the collection. *)
Lemma replace_ids (jobs : Job.collection) (job : Job.doc) :
  map Job._id (JobRoutes.replace jobs job) = map Job._id jobs.
Proof.
  unfold JobRoutes.replace. rewrite map_map. apply map_ext.
  intro a. destruct (String.eqb_spec (Job._id a) (Job._id job)); congruence.
Qed.

(** With unique ids, replacing touches the job of that id only. *)
Lemma replace_others (jobs : Job.collection) (job y : Job.doc) :
  In y jobs -> Job._id y <> Job._id job ->
  In y (JobRoutes.replace jobs job).
Proof.
  intros I N. unfold JobRoutes.replace. apply in_map_iff.
  exists y. split; [|exact I].
  apply String.eqb_neq in N. now rewrite N.
Qed.

Lemma replace_self (jobs : Job.collection) (job : Job.doc) :
  NoDup (map Job._id jobs) -> In job jobs ->
  JobRoutes.replace jobs job = jobs.
Proof.
  intros ND I. unfold JobRoutes.replace.
  rewrite <- (map_id jobs) at 2. apply map_ext_in.
  intros a Ia.
  destruct (String.eqb_spec (Job._id a) (Job._id job)) as [E|]; [|reflexivity].
  symmetry. exact (NoDup_map_eq Job._id jobs a job ND Ia I E).
Qed.

(** The collection after a handler ran is the one before, unless the
    handler answered itself. *)
Lemma create_store `{JobStoreLib} (jobs : Job.collection) (newId : string)
    (now : Z) (req : Request) :
  fst (JobRoutes.create jobs newId now req) = jobs
  \/ exists r, JobRoutes.create jobs newId now req
               = (fst (JobRoutes.create jobs newId now req), Responded r).
Proof.
  unfold JobRoutes.create.
  destruct (negb _); [now left|].
  destruct (user req); [|now left].
  destruct (castObjectId _); [|now left].
  destruct (job_validate _); [now left|].
  destruct (existsb _ jobs); [now left|]. right. eauto.
Qed.

Lemma put_store `{JobStoreLib} (keep : jsval -> jsval -> jsval)
    (jobs : Job.collection) (req : Request) :
  fst (JobRoutes.put keep jobs req) = jobs
  \/ exists r, JobRoutes.put keep jobs req
               = (fst (JobRoutes.put keep jobs req), Responded r).
Proof.
  unfold JobRoutes.put.
  destruct (negb _); [now left|].
  destruct (user req); [|now left].
  destruct (JobRoutes.findOne _ _ _) as [err|[job|]]; [now left| |now left].
  cbv zeta. destruct (job_validate _); [now left|]. right. eauto.
Qed.

Lemma delete_store `{JobStoreLib} (jobs : Job.collection) (req : Request) :
  fst (JobRoutes.delete jobs req) = jobs
  \/ exists r, JobRoutes.delete jobs req
               = (fst (JobRoutes.delete jobs req), Responded r).
Proof.
  unfold JobRoutes.delete.
  destruct (user req) as [u|]; [|now left].
  destruct (castObjectId (userId u)); [|now left].
  destruct (castObjectId (params_id req)); [|now left].
  destruct (JobRoutes.findOneAndDelete _ _ _) as [rest [x|]]; [|now left].
  right. eauto.
Qed.

(** Uniqueness of job ids is an invariant of the collection under
    create, update and delete, whatever the request and the outcome. *)
Theorem job_ids_stay_unique `{JobStoreLib} (keep : jsval -> jsval -> jsval)
    (jobs : Job.collection) (newId : string) (now : Z) (req : Request) :
  NoDup (map Job._id jobs) ->
  NoDup (map Job._id (fst (JobRoutes.create jobs newId now req)))
  /\ NoDup (map Job._id (fst (JobRoutes.put keep jobs req)))
  /\ NoDup (map Job._id (fst (JobRoutes.delete jobs req))).
Proof.
  intro ND. split; [|split].
  - destruct (create_store jobs newId now req) as [->|[r C]]; [exact ND|].
    apply create_inv in C as (u & owner & _ & _ & _ & Fresh & E & _).
    rewrite E, map_app. apply NoDup_snoc; [exact ND|].
    intro I. apply in_map_iff in I as [j [Ej Ij]]. now apply (Fresh j).
  - destruct (put_store keep jobs req) as [->|[r P]]; [exact ND|].
    destruct (user req) as [u|] eqn:U.
    2:{ unfold JobRoutes.put in P. rewrite U in P.
        destruct (negb _) in P; discriminate. }
    destruct (castObjectId (userId u)) as [owner|] eqn:C.
    2:{ unfold JobRoutes.put, JobRoutes.findOne in P. rewrite U, C in P.
        destruct (negb _) in P; [discriminate|].
        destruct (castObjectId (params_id req)) in P; discriminate. }
    apply (put_scoped keep jobs _ req u owner r U C) in P
      as (x & x' & _ & _ & _ & _ & E & _).
    now rewrite E, replace_ids.
  - destruct (delete_store jobs req) as [->|[r D]]; [exact ND|].
    apply delete_inv in D
      as (u & i & owner & x & before & after & _ & _ & _ & _ & _ & E & E').
    rewrite E, map_app in ND. cbn [map] in ND.
    apply NoDup_remove_1 in ND. now rewrite E', map_app.
Qed.

(** No request changes or removes a job of another identity: a stored
    job whose owner is not the requester is in the collection, as it
    was, after any create, update or delete. *)
Theorem writes_spare_foreign_jobs `{JobStoreLib}
    (keep : jsval -> jsval -> jsval) (jobs : Job.collection)
    (newId : string) (now : Z) (req : Request) (u : Payload)
    (owner : string) (y : Job.doc) :
  NoDup (map Job._id jobs) ->
  user req = Some u -> castObjectId (userId u) = Some owner ->
  In y jobs -> Job.user y <> owner ->
  In y (fst (JobRoutes.create jobs newId now req))
  /\ In y (fst (JobRoutes.put keep jobs req))
  /\ In y (fst (JobRoutes.delete jobs req)).
Proof.
  intros ND U C Iy Ny. split; [|split].
  - destruct (create_store jobs newId now req) as [->|[r Cr]]; [exact Iy|].
    apply create_inv in Cr as (u' & owner' & _ & _ & _ & _ & E & _).
    rewrite E. apply in_or_app. now left.
  - destruct (put_store keep jobs req) as [->|[r P]]; [exact Iy|].
    apply (put_scoped keep jobs _ req u owner r U C) in P
      as (x & x' & Ix & Ox & Ex & _ & Ej & _).
    rewrite Ej. apply replace_others; [exact Iy|]. rewrite Ex. intro E.
    apply Ny. rewrite <- Ox. f_equal.
    exact (NoDup_map_eq Job._id jobs y x ND Iy Ix E).
  - destruct (delete_store jobs req) as [->|[r D]]; [exact Iy|].
    apply (delete_scoped jobs _ req u owner r U C) in D
      as (x & before & after & Ox & E & E').
    rewrite E'. rewrite E in Iy. apply in_app_or in Iy as [I|[<-|I]].
    + apply in_or_app. now left.
    + contradiction.
    + apply in_or_app. now right.
Qed.

(** What an update that succeeds did. *)
Lemma put_inv `{JobStoreLib} (keep : jsval -> jsval -> jsval)
    (jobs jobs' : Job.collection) (req : Request) (r : Response) :
  JobRoutes.put keep jobs req = (jobs', Responded r) ->
  exists u job,
    user req = Some u
    /\ JobRoutes.findOne jobs (params_id req) (userId u) = inr (Some job)
    /\ JobRoutes.update_valid (body_of req) = true
    /\ job_validate (JobRoutes.assign keep (body_of req) job) = None
    /\ jobs' = JobRoutes.replace jobs (JobRoutes.assign keep (body_of req) job)
    /\ r = mkResponse 200
             (Job.to_json (JobRoutes.assign keep (body_of req) job)).
Proof.
  unfold JobRoutes.put.
  destruct (JobRoutes.update_valid (body_of req)); [|discriminate].
  cbn [negb].
  destruct (user req) as [u|]; [|discriminate].
  destruct (JobRoutes.findOne _ _ _) as [err|[job|]] eqn:F; try discriminate.
  cbv zeta.
  destruct (job_validate _) eqn:V; [discriminate|].
  intros [= <- <-]. exists u, job. repeat split; auto.
Qed.

(** [find] through a map that keeps the test on the elements of the
    list. *)
Lemma find_map_in {A : Type} (p : A -> bool) (f : A -> A) (l : list A) :
  (forall a, In a l -> p (f a) = p a) ->
  find p (map f l) = option_map f (find p l).
Proof.
  induction l as [|a l IH]; simpl; intro K; [reflexivity|].
  rewrite (K a) by auto. destruct (p a); [reflexivity|]. apply IH. auto.
Qed.

Lemma findOne_found `{JobStoreLib} (jobs : Job.collection) (id uid : string)
    (job : Job.doc) :
  JobRoutes.findOne jobs id uid = inr (Some job) ->
  exists i owner,
    castObjectId id = Some i /\ castObjectId uid = Some owner
    /\ In job jobs /\ Job._id job = i /\ Job.user job = owner.
Proof.
  unfold JobRoutes.findOne.
  destruct (castObjectId uid) as [owner|]; [|discriminate].
  destruct (castObjectId id) as [i|]; [|discriminate].
  intros [= F]. apply find_some in F as [I M].
  apply andb_true_iff in M as [M1 M2]. apply String.eqb_eq in M1, M2.
  exists i, owner. auto.
Qed.

(** The lookup after a replacement finds the replacement. *)
Lemma findOne_replaced `{JobStoreLib} (jobs : Job.collection)
    (id uid : string) (job job' : Job.doc) :
  NoDup (map Job._id jobs) ->
  JobRoutes.findOne jobs id uid = inr (Some job) ->
  Job._id job' = Job._id job -> Job.user job' = Job.user job ->
  JobRoutes.findOne (JobRoutes.replace jobs job') id uid = inr (Some job').
Proof.
  intros ND F Ei Eu.
  destruct (findOne_found jobs id uid job F) as (i & owner & Ci & Co & I & _).
  unfold JobRoutes.findOne in *. rewrite Ci, Co in *.
  injection F as F. unfold JobRoutes.replace.
  rewrite find_map_in.
  - rewrite F. cbn [option_map]. now rewrite Ei, String.eqb_refl.
  - intros a Ia.
    destruct (String.eqb_spec (Job._id a) (Job._id job')) as [E|];
      [|reflexivity].
    rewrite Ei in E.
    rewrite (NoDup_map_eq Job._id jobs a job ND Ia I E).
    now rewrite Ei, Eu.
Qed.

Lemma assign_again (keep : jsval -> jsval -> jsval) (b : JobBody)
    (job : Job.doc) :
  (forall v old, keep v (keep v old) = keep v old) ->
  JobRoutes.assign keep b (JobRoutes.assign keep b job)
  = JobRoutes.assign keep b job.
Proof.
  intro K. unfold JobRoutes.assign.
  cbn [Job._id Job.title Job.company Job.description Job.location
       Job.salary Job.user Job.createdAt].
  now rewrite !K.
Qed.

Lemma put_again `{JobStoreLib} (keep : jsval -> jsval -> jsval)
    (jobs jobs' : Job.collection) (req : Request) (r : Response) :
  (forall v old, keep v (keep v old) = keep v old) ->
  NoDup (map Job._id jobs) ->
  JobRoutes.put keep jobs req = (jobs', Responded r) ->
  JobRoutes.put keep jobs' req = (jobs', Responded r).
Proof.
  intros K ND P.
  apply put_inv in P as (u & job & U & F & V & OK & -> & ->).
  remember (JobRoutes.assign keep (body_of req) job) as job' eqn:EJ.
  assert (JobRoutes.assign keep (body_of req) job' = job') as A.
  { rewrite EJ. now apply assign_again. }
  assert (Job._id job' = Job._id job /\ Job.user job' = Job.user job)
    as [Ei Eu].
  { rewrite EJ. split; reflexivity. }
  pose proof (findOne_replaced jobs (params_id req) (userId u) job job'
                ND F Ei Eu) as F'.
  unfold JobRoutes.put. rewrite V, U, F'. cbn [negb]. cbv zeta.
  rewrite A, OK.
  rewrite (replace_self (JobRoutes.replace jobs job') job').
  - reflexivity.
  - now rewrite replace_ids.
  - destruct (findOne_found _ _ _ _ F') as (_ & _ & _ & _ & I & _). exact I.
Qed.

(** An update is idempotent: the same PUT sent again is answered as
    the first time and leaves the collection as the first one left it;
    so with [||] and with [??]. *)
Theorem put_idempotent `{JobStoreLib} (jobs : Job.collection)
    (req : Request) :
  NoDup (map Job._id jobs) ->
  (forall jobs' r,
      JobRoutes.put JS.or jobs req = (jobs', Responded r) ->
      JobRoutes.put JS.or jobs' req = (jobs', Responded r))
  /\ (forall jobs' r,
        JobRoutes.put JS.nullish jobs req = (jobs', Responded r) ->
        JobRoutes.put JS.nullish jobs' req = (jobs', Responded r)).
Proof.
  intro ND. split; intros jobs' r P.
  - apply (put_again JS.or jobs); auto.
    intros v old. unfold JS.or.
    destruct (JS.truthy v); reflexivity.
  - apply (put_again JS.nullish jobs); auto.
    intros v old. now destruct v.
Qed.



(** ** Jobs: the list *)

(** [Math.ceil(total / limit)] for a positive limit is the number of
    pages that hold [total] jobs, [limit] to a page: the last page is
    not empty and no job is left over.  For a limit of 0 or one that is
    no number there is none. *)
Theorem totalPages_bounds (total n : Z) :
  0 < n ->
  (exists k, JobRoutes.ceil_div total (Some n) = Some k
             /\ (k - 1) * n < total <= k * n)
  /\ JobRoutes.ceil_div total (Some 0) = None
  /\ JobRoutes.ceil_div total None = None.
Proof.
  intro P. split; [|split; reflexivity].
  unfold JobRoutes.ceil_div.
  destruct (Z.eqb_spec n 0) as [E|_]; [lia|].
  eexists. split; [reflexivity|].
  pose proof (Z.div_mod (- total) n ltac:(lia)) as D.
  pose proof (Z.mod_pos_bound (- total) n P) as B.
  nia.
Qed.

(** ** The signup page *)

(** The signup page never shows the message of an error the backend's
    error handler answered: that answer carries [message], the page
    reads [msg], and shows ['Something went wrong']; so it does when no
    answer arrives.  An answer outside 2xx that carries a [msg], as the
    auth gate's do, is shown. *)
Theorem signup_page_hides_handler_message (e : JsError) :
  (status (errorHandler e) < 200 \/ 300 <= status (errorHandler e) ->
   SignupPage.handleSubmit (SignupPage.axios_post (Some (errorHandler e)))
   = JV (JStr "Something went wrong"))
  /\ SignupPage.handleSubmit (SignupPage.axios_post None)
     = JV (JStr "Something went wrong")
  /\ (forall code m,
        code < 200 \/ 300 <= code -> m <> "" ->
        SignupPage.handleSubmit
          (SignupPage.axios_post (Some (mkResponse code (msg_body m))))
        = JV (JStr m)).
Proof.
  split; [|split; [reflexivity|]].
  - intro Out. unfold SignupPage.axios_post.
    assert ((200 <=? status (errorHandler e))
            && (status (errorHandler e) <? 300) = false) as ->.
    { apply andb_false_iff. destruct Out; [left|right].
      - now apply Z.leb_gt.
      - now apply Z.ltb_ge. }
    reflexivity.
  - intros code m Out N. unfold SignupPage.axios_post. cbn [status].
    assert ((200 <=? code) && (code <? 300) = false) as ->.
    { apply andb_false_iff. destruct Out; [left|right].
      - now apply Z.leb_gt.
      - now apply Z.ltb_ge. }
    cbn. apply String.eqb_neq in N. now rewrite N.
Qed.

(** A change of a form field sets that field, keeps every other field,
    and keeps the fields of the form when the field is one of them. *)
Theorem handleChange_sets_one_field (formData : list (string * string))
    (name value : string) :
  SignupPage.field (SignupPage.handleChange formData name value) name
  = Some value
  /\ (forall k, k <> name ->
        SignupPage.field (SignupPage.handleChange formData name value) k
        = SignupPage.field formData k)
  /\ (In name (map fst formData) ->
      map fst (SignupPage.handleChange formData name value)
      = map fst formData).
Proof.
  unfold SignupPage.field. split; [|split].
  - induction formData as [|[k v] rest IH]; simpl.
    + now rewrite String.eqb_refl.
    + destruct (String.eqb_spec k name) as [->|N]; simpl.
      * now rewrite String.eqb_refl.
      * apply String.eqb_neq in N. now rewrite N.
  - intros k' N. induction formData as [|[k v] rest IH]; simpl.
    + apply String.eqb_neq in N. rewrite String.eqb_sym in N. now rewrite N.
    + destruct (String.eqb_spec k name) as [->|D]; simpl.
      * apply String.eqb_neq in N. rewrite String.eqb_sym in N.
        now rewrite N.
      * destruct (k =? k')%string; [reflexivity|exact IH].
  - induction formData as [|[k v] rest IH]; simpl; [intros []|].
    destruct (String.eqb_spec k name) as [->|D]; simpl; [reflexivity|].
    intros [E|I]; [contradiction|]. now rewrite IH.
Qed.

(** ** Seeding the users *)






(** ** What the two generations do differently *)

(** The signup of src/routes/auth.js does not read the requested role:
    its outcome is the same whatever role the body asks for, and every
    identity it stores is a candidate. *)
Theorem signup1_ignores_role `{ValidatorLib} `{BcryptLib}
    (users : User.collection) (b : SignupBody) (requested : jsval)
    (newId salt hook_salt : string) :
  AuthRoutes1.signup users
    (mkSignup (signup_name b) (signup_email b) (signup_password b) requested)
    newId salt hook_salt
  = AuthRoutes1.signup users b newId salt hook_salt
  /\ (forall users' r,
        AuthRoutes1.signup users b newId salt hook_salt
        = (users', Responded r) ->
        exists u, users' = users ++ [u] /\ User.role u = "candidate").
Proof.
  split; [reflexivity|].
  intros users' r S. apply signup1_inv in S as (_ & _ & -> & _).
  eexists. split; reflexivity.
Qed.

(** What the gate lets through is the request with claims attached. *)
Lemma authMiddleware_next `{JwtLib} (JWT_SECRET : string) (now : Z)
    (req req' : Request) :
  authMiddleware JWT_SECRET now req = Next req' ->
  exists decoded, req' = set_user req decoded.
Proof.
  unfold authMiddleware.
  destruct (header_Authorization req) as [h|]; [|discriminate].
  destruct (_ || _); [discriminate|].
  destruct (nth_error _ 1) as [token|]; [|discriminate].
  destruct (jwt_verify _ _ _) as [decoded|]; [|discriminate].
  intros [= <-]. eauto.
Qed.

(** POST /api/jobs of the later routes/jobs.js never creates a job:
    whatever the request, its token and its body, the collection stays
    as it was and the answer is no 201. *)
Theorem jobs2_post_never_creates `{JwtLib} `{JobStoreLib}
    (secret : string) (now : Z) (jobs : Job.collection) (newId : string)
    (req : Request) :
  fst (JobRoutes2.POST secret now jobs newId req) = jobs
  /\ option_map status (terminal (snd (JobRoutes2.POST secret now jobs newId req)))
     <> Some 201.
Proof.
  unfold JobRoutes2.POST, through.
  destruct (authMiddleware secret now req) as [r|e|req'] eqn:A.
  - split; [reflexivity|].
    unfold authMiddleware in A.
    destruct (header_Authorization req) as [h|].
    + destruct (_ || _).
      * injection A as <-. discriminate.
      * destruct (nth_error _ 1) as [token|].
        -- destruct (jwt_verify _ _ _); [discriminate|].
           injection A as <-. discriminate.
        -- injection A as <-. discriminate.
    + injection A as <-. discriminate.
  - exfalso. unfold authMiddleware in A.
    destruct (header_Authorization req) as [h|]; [|discriminate].
    destruct (_ || _); [discriminate|].
    destruct (nth_error _ 1) as [token|]; [|discriminate].
    destruct (jwt_verify _ _ _); discriminate.
  - apply authMiddleware_next in A as [decoded ->].
    unfold jobs_create_gate, authorize, set_user. cbn [user].
    change (JS.includes [ArgArr [JStr "recruiter"; JStr "admin"]]
                        (payload_role decoded))
      with false.
    split; [reflexivity|discriminate].
Qed.


(** * Runs on the model

    The theorems above applied to concrete requests, and the handlers
    evaluated on them. *)

Import Model.

(** The token of Alice's login through part_001, issued and verified at
    clock 0. *)
Lemma issued_token_verifies_witness :
  0 <= 0 < 0 + 3600
  /\ exists u tok,
       User.findOne_email [Model.alice] "alice@x.com" = Some u
       /\ response_token
            (res_json
               (JObject [("token",
                          JV (JStr (jwt_sign_1h (User._id Model.alice)
                                      (Some "candidate") "k" 0)));
                         ("user", AuthRoutes2.user_json Model.alice)]))
          = Some tok
       /\ jwt_verify tok "k" 0
          = Some (mkPayload (User._id u) (Some (User.role u)) 0 (0 + 3600)).
Proof.
  split; [lia|].
  exact (proj1 (proj2 (issued_token_verifies "k" 0 0
                         (conj (Z.le_refl 0) eq_refl)))
           [Model.alice] Model.alice_login _ eq_refl).
Defined.

(** C5 as stated fails on src/routes/auth.js: the token its login issues
    for Alice, a candidate, verifies to claims without a role. *)
Lemma login1_token_carries_no_role :
  exists tok p,
    option_map response_token
      (terminal (AuthRoutes1.login [Model.alice] Model.alice_login "k" 0))
    = Some (Some tok)
    /\ jwt_verify tok "k" 0 = Some p
    /\ userId p = User._id Model.alice
    /\ role p <> Some (User.role Model.alice).
Proof.
  eexists. eexists. split; [vm_compute; reflexivity|].
  split; [vm_compute; reflexivity|]. split; [reflexivity|]. discriminate.
Qed.

(** ** Signup and login *)

(** Alice signs up through src/routes/auth.js and logs in with the same
    password. *)
Lemma signup1_then_login_rejected_witness :
  terminal
    (AuthRoutes1.login
       (fst (AuthRoutes1.signup [] (alice_signup JUndef)
               "64b000000000000000000001" "salt" "hook salt"))
       alice_login "k" 0)
  = Some invalid_credentials.
Proof.
  exact (proj2 (proj2
           (signup1_then_login_rejected [] _ (alice_signup JUndef)
              "64b000000000000000000001" "salt" "hook salt" "k" 0 _
              eq_refl))).
Defined.

(** The same signup through part_001, and the login that follows it. *)
Example signup2_then_login2_run :
  let users := fst (AuthRoutes2.signup [] (alice_signup JUndef)
                      "64b000000000000000000001" "salt" "k" 0) in
  option_map status (terminal (AuthRoutes2.login users alice_login "k" 5))
  = Some 200
  /\ terminal (AuthRoutes2.login users (mkLogin "alice@x.com" "secret2") "k" 5)
     = Some invalid_credentials
  /\ terminal (AuthRoutes2.login users (mkLogin "Alice@X.com " "secret1") "k" 5)
     = terminal (AuthRoutes2.login users alice_login "k" 5).
Proof. vm_compute. repeat split. Qed.

(** The administrator Alice asked to be is stored as a candidate. *)
Lemma signup_role_clamped_witness :
  exists u,
    User.findOne_email (fst admin_signup) "alice@x.com" = Some u
    /\ User.role u = "candidate".
Proof.
  assert (AuthRoutes2.signup [] (alice_signup (JStr "admin"))
            "64b000000000000000000001" "salt" "k" 0
          = (fst admin_signup, Responded (responded (snd admin_signup))))
    as S by reflexivity.
  destruct (signup_role_clamped _ _ _ _ _ _ _ _ S)
    as (u & F & _ & _ & _ & _ & C).
  exists u. split; [exact F|]. apply C; discriminate.
Defined.

(** The stored role for a range of requested ones. *)
Example signup_roles_run :
  map (fun requested =>
         map User.role
           (fst (AuthRoutes2.signup [] (alice_signup requested)
                   "64b000000000000000000001" "salt" "k" 0)))
      [JStr "recruiter"; JStr "candidate"; JStr "admin"; JUndef; JNull;
       JStr "Recruiter"; JNum 1]
  = [["recruiter"]; ["candidate"]; ["candidate"]; ["candidate"];
     ["candidate"]; ["candidate"]; ["candidate"]].
Proof. vm_compute. reflexivity. Qed.


(** A wrong password for Alice and an unknown email are answered
    alike. *)
Example login_wrong_password_run :
  terminal (AuthRoutes1.login [alice] (mkLogin "alice@x.com" "secret2") "k" 0)
  = terminal (AuthRoutes1.login [alice] (mkLogin "nobody@x.com" "secret2")
                "k" 0).
Proof. vm_compute. reflexivity. Qed.


(** A password that is a number, and one that is [null]. *)
Example login_password_types_run :
  map (fun pw =>
         option_map status
           (terminal (AuthRoutes2.login [alice]
                        (mkLoginBody "alice@x.com" pw) "k" 0)))
      [JStr "secret1"; JStr "secret2"; JNum 1; JNull; JBool true; JUndef]
  = [Some 200; Some 400; Some 500; Some 500; Some 500; Some 500].
Proof. vm_compute. reflexivity. Qed.

(** ** The gates *)

(** C8 as stated fails at the auth gate: a request without a token is
    answered 401 with the body [{msg}], which has neither [success] nor
    [message]. *)
Lemma auth_gate_answer_not_uniform :
  exists r,
    terminal (authMiddleware "k" 0 bare_request) = Some r
    /\ status r = 401
    /\ ~ uniform_error_body (body r).
Proof.
  eexists. split; [reflexivity|]. split; [reflexivity|].
  intros [m E]. discriminate E.
Qed.

(** Bob's token passes the gate within its hour, and fails past it or
    under another secret. *)
Example auth_gate_run :
  authMiddleware "k" 10 bob_create = Next (set_user bob_create bob_claims)
  /\ option_map status (terminal (authMiddleware "k" 3600 bob_create))
     = Some 401
  /\ option_map status (terminal (authMiddleware "other key" 10 bob_create))
     = Some 401.
Proof. vm_compute. repeat split. Qed.

(** The recruiter is turned away by the later routes/jobs.js and served
    by src/routes/jobs.js. *)
Example jobs_create_run :
  terminal (snd (JobRoutes2.POST "k" 10 [] "64c000000000000000000001"
                   bob_create))
  = Some (mkResponse 403
            (JObject [("success", JV (JBool false));
                      ("message", JV (JStr "Access denied: insufficient role"))]))
  /\ option_map status
       (terminal (snd (JobRoutes1.POST "k" 10 [] "64c000000000000000000001"
                         bob_create)))
     = Some 201.
Proof. vm_compute. repeat split. Qed.

(** ** Jobs *)


(** With [page=0] the skip is negative: the cursor is rejected and the
    list ends in the error handler. *)
Example list_page_zero_run :
  option_map status
    (terminal (JobRoutes.list [bob_job]
                 (mkRequest None "" (mkListQuery (Some "0") None None None None)
                            no_fields (Some alice_claims))))
  = Some 500.
Proof. vm_compute. reflexivity. Qed.


(** Bob sets the salary of his job to 0 through src/routes/jobs.js. *)
Lemma put_or_ignores_zero_salary_witness :
  JobRoutes.put JS.or [bob_job]
    (request_by bob_claims (mkJobBody JUndef JUndef JUndef JUndef (JNum 0)))
  = ([bob_job], Responded (mkResponse 200 (Job.to_json bob_job))).
Proof.
  exact (proj2 (put_or_ignores_zero_salary [bob_job]
                  (request_by bob_claims
                     (mkJobBody JUndef JUndef JUndef JUndef (JNum 0)))
                  bob_claims bob_job eq_refl eq_refl eq_refl eq_refl)).
Defined.

(** The same request through the later routes/jobs.js sets the salary. *)
Example put_nullish_run :
  option_map (fun r => json_field "salary" (body r))
    (terminal (snd (JobRoutes.put JS.nullish [bob_job]
                      (request_by bob_claims
                         (mkJobBody JUndef JUndef JUndef JUndef (JNum 0))))))
  = Some (Some (JV (JNum 0)))
  /\ option_map (fun r => json_field "salary" (body r))
       (terminal (snd (JobRoutes.put JS.or [bob_job]
                         (request_by bob_claims
                            (mkJobBody JUndef JUndef JUndef JUndef (JNum 0))))))
     = Some (Some (JV (JNum 50000))).
Proof. vm_compute. repeat split. Qed.

(** * Further runs on the model *)

(** ** Signup *)


(** A password of five characters. *)
Lemma signup_invalid_rejected_witness :
  AuthRoutes2.signup [] (mkSignup "Alice" "alice@x.com" "secre" JUndef)
    "64b000000000000000000001" "hook" "k" 0
  = ([], NextErr (CustomError "Validation failed" 400)).
Proof.
  refine (proj1 (signup_invalid_rejected []
                   (mkSignup "Alice" "alice@x.com" "secre" JUndef)
                   "64b000000000000000000001" "salt" "hook" "k" 0 _)).
  right. right. simpl. lia.
Defined.

(** A password of exactly six characters, and a name with blanks
    around it. *)
Lemma signup2_accepts_witness :
  exists u r,
    AuthRoutes2.signup [alice]
      (mkSignup " Bob " "Bob@X.com" "secret" (JStr "recruiter"))
      "64b000000000000000000002" "salt" "k" 0
    = ([alice] ++ [u], Responded r)
    /\ status r = 201
    /\ User._id u = "64b000000000000000000002"
    /\ User.email u = User.cast_email "Bob@X.com".
Proof.
  refine (signup2_accepts [alice]
            (mkSignup " Bob " "Bob@X.com" "secret" (JStr "recruiter"))
            "64b000000000000000000002" "salt" "k" 0 _ _ _ _ _ _ _).
  - reflexivity.
  - discriminate.
  - discriminate.
  - reflexivity.
  - discriminate.
  - simpl. lia.
  - intros x [<-|[]]. split; discriminate.
Defined.


(** Bob signs up beside Alice. *)
Lemma signup_keeps_unique_witness :
  NoDup (map User.email
           (fst (AuthRoutes2.signup [alice]
                   (mkSignup "Bob" "bob@x.com" "secret2" JUndef)
                   "64b000000000000000000002" "hook" "k" 0))).
Proof.
  refine (proj2 (proj1 (signup_keeps_unique [alice]
                          (mkSignup "Bob" "bob@x.com" "secret2" JUndef)
                          "64b000000000000000000002" "salt" "hook" "k" 0
                          _ _)));
    (constructor; [intros []|constructor]).
Defined.

(** Alice logs in under the email her signup reported. *)
Lemma login_under_any_spelling_witness :
  exists u,
    json_field "user" (body (responded (snd admin_signup)))
    = Some (AuthRoutes2.user_json u)
    /\ exists r',
         AuthRoutes2.login (fst admin_signup)
           (mkLogin (User.email u) "secret1") "k" 5
         = Responded r'
         /\ status r' = 200.
Proof.
  assert (AuthRoutes2.signup [] (alice_signup (JStr "admin"))
            "64b000000000000000000001" "salt" "k" 0
          = (fst admin_signup, Responded (responded (snd admin_signup))))
    as S by reflexivity.
  destruct (login_under_any_spelling _ _ _ _ _ _ _ 5 _ S) as (u & J & E & L).
  exists u. split; [exact J|].
  destruct (L (User.email u) E) as (r' & L' & St & _).
  exists r'. split; [exact L'|exact St].
Defined.

(** ** Tokens and gates *)

(** The token of Alice's login at clock 0. *)
Definition alice_token : string :=
  jwt_sign_1h "64b000000000000000000001" (Some "candidate") "k" 0.

Definition alice_login_response : Response :=
  res_json (JObject [("token", JV (JStr alice_token));
                     ("user", AuthRoutes2.user_json alice)]).

(** Alice is greeted half an hour after her login. *)
Lemma protected_greets_logged_in_witness :
  exists u,
    User.findOne_email [alice] "alice@x.com" = Some u
    /\ GET_protected "k" 1800 (with_bearer bare_request alice_token)
       = Responded
           (mkResponse 200
              (msg_body ("Hello " ++ User._id u ++ ", you're authorized!"))).
Proof.
  refine (protected_greets_logged_in [alice] alice_login "k" 0 1800
            alice_login_response alice_token bare_request _ _ _ _);
    try reflexivity.
  lia.
Defined.

(** And refused an hour after it. *)
Lemma expired_token_refused_witness :
  GET_protected "k" 3600 (with_bearer bare_request alice_token)
  = Responded (mkResponse 401 (msg_body "Token is not valid")).
Proof.
  refine (proj1 (expired_token_refused [alice] alice_login "k" 0 3600
                   alice_login_response alice_token bare_request
                   [bob_job] JS.or _ _ _ _));
    try reflexivity; try lia.
Defined.

(** The token the login of src/routes/auth.js issues Alice. *)
Definition alice_token1 : string :=
  jwt_sign_1h "64b000000000000000000001" None "k" 0.

Lemma login1_token_fails_role_gates_witness :
  exists req',
    authMiddleware "k" 10 (with_bearer bare_request alice_token1) = Next req'
    /\ terminal (authorize (role_args ["candidate"; "recruiter"; "admin"]) req')
       = Some access_denied
    /\ option_map status
         (terminal (authorizeRoles
                      (role_args ["candidate"; "recruiter"; "admin"]) req'))
       = Some 403.
Proof.
  refine (login1_token_fails_role_gates [alice] alice_login "k" 0 10
            (responded (AuthRoutes1.login [alice] alice_login "k" 0))
            alice_token1 bare_request ["candidate"; "recruiter"; "admin"]
            _ _ _ _);
    try reflexivity.
  lia.
Defined.

(** The gates on Bob, a recruiter, and on Alice, a candidate. *)
Example role_gate_run :
  authorize (role_args ["recruiter"; "admin"]) (request_by bob_claims no_fields)
  = Next (request_by bob_claims no_fields)
  /\ terminal (authorize (role_args ["recruiter"; "admin"])
                 (request_by alice_claims no_fields))
     = Some access_denied
  /\ option_map status
       (terminal (authorizeRoles (role_args ["recruiter"; "admin"])
                    (request_by alice_claims no_fields)))
     = Some 403.
Proof. vm_compute. repeat split. Qed.

(** ** Jobs *)

(** Bob's request to create a job, past the auth gate. *)
Definition bob_post : Request :=
  mkRequest None "" no_query
    (mkJobBody (JStr "Engineer") (JStr "Acme")
               (JStr "Builds the things we sell") (JStr "Paris") (JNum 50000))
    (Some bob_claims).

(** Bob creates his job and reads it back. *)
Lemma create_then_get_witness :
  JobRoutes.get [bob_job] (request_by bob_claims no_fields)
  = Responded (mkResponse 200 (Job.to_json bob_job)).
Proof.
  assert (JobRoutes.create [] "64c000000000000000000001" 1700000000 bob_post
          = ([bob_job], Responded (mkResponse 201 (Job.to_json bob_job))))
    as C by reflexivity.
  assert (castObjectId "64c000000000000000000001"
          = Some "64c000000000000000000001") as I by reflexivity.
  destruct (create_then_get [] [bob_job] "64c000000000000000000001"
              1700000000 bob_post (request_by bob_claims no_fields)
              (mkResponse 201 (Job.to_json bob_job)) C I eq_refl eq_refl)
    as (job & owner & E & _ & _ & _ & _ & R & G).
  injection E as <-. exact G.
Defined.

(** Bob deletes his job and asks for it again. *)
Lemma delete_then_gone_witness :
  terminal (JobRoutes.get [] (request_by bob_claims no_fields))
  = Some job_not_found.
Proof.
  refine (proj1 (proj2 (delete_then_gone [bob_job] []
                          (request_by bob_claims no_fields)
                          (res_json (JObject
                             [("msg", JV (JStr "Job deleted successfully"))]))
                          _ _))).
  - constructor; [intros []|constructor].
  - reflexivity.
Defined.

Lemma job_ids_stay_unique_witness :
  NoDup (map Job._id
           (fst (JobRoutes.create [bob_job] "64c000000000000000000002"
                   1700000001 bob_post))).
Proof.
  refine (proj1 (job_ids_stay_unique JS.or [bob_job]
                   "64c000000000000000000002" 1700000001 bob_post _)).
  constructor; [intros []|constructor].
Defined.

(** Alice's update and delete of Bob's job leave it where it is. *)
Lemma writes_spare_foreign_jobs_witness :
  In bob_job (fst (JobRoutes.put JS.nullish [bob_job]
                     (request_by alice_claims
                        (mkJobBody (JStr "Mine") JUndef JUndef JUndef JUndef))))
  /\ In bob_job (fst (JobRoutes.delete [bob_job]
                        (request_by alice_claims no_fields))).
Proof.
  split.
  - refine (proj1 (proj2 (writes_spare_foreign_jobs JS.nullish [bob_job]
                            "64c000000000000000000002" 0
                            (request_by alice_claims
                               (mkJobBody (JStr "Mine") JUndef JUndef JUndef
                                          JUndef))
                            alice_claims "64b000000000000000000001" bob_job
                            _ _ _ _ _)));
      try reflexivity.
    + constructor; [intros []|constructor].
    + now left.
    + discriminate.
  - vm_compute. now left.
Defined.

(** Bob renames his job, twice. *)
Definition bob_rename : Request :=
  request_by bob_claims
    (mkJobBody (JStr "Senior engineer") JUndef JUndef JUndef JUndef).

Lemma put_idempotent_witness :
  JobRoutes.put JS.nullish
    (fst (JobRoutes.put JS.nullish [bob_job] bob_rename)) bob_rename
  = (fst (JobRoutes.put JS.nullish [bob_job] bob_rename),
     Responded (responded (snd (JobRoutes.put JS.nullish [bob_job]
                                  bob_rename)))).
Proof.
  assert (NoDup (map Job._id [bob_job])) as ND.
  { constructor; [intros []|constructor]. }
  refine (proj2 (put_idempotent [bob_job] bob_rename ND) _ _ _).
  reflexivity.
Defined.



Example null_field_run :
  JobRoutes.put JS.nullish [bob_job]
    (request_by bob_claims (mkJobBody JUndef JUndef JUndef JUndef JNull))
  = ([bob_job], NextErr (CustomError "Validation failed" 400)).
Proof. vm_compute. reflexivity. Qed.

(** Twenty-one jobs at ten to a page. *)
Lemma totalPages_bounds_witness :
  exists k, JobRoutes.ceil_div 21 (Some 10) = Some k
            /\ (k - 1) * 10 < 21 <= k * 10.
Proof.
  refine (proj1 (totalPages_bounds 21 10 _)). lia.
Defined.


(** ** Seeding *)

Definition seed_id (i : nat) : string :=
  ("64a00000000000000000000" ++ Str.of_Z (Z.of_nat i))%string.

Definition seed_salt (i : nat) : string :=
  ("salt " ++ Str.of_Z (Z.of_nat i))%string.


Example seedUsers_run :
  map (fun u => (User.name u, User.email u, User.role u))
      (fst (SeedUsers.seedUsers [alice] seed_id seed_salt))
  = [("Alice Johnson", "alice@example.com", "candidate");
     ("Bob Smith", "bob@example.com", "candidate");
     ("Charlie Brown", "charlie@example.com", "candidate")].
Proof. vm_compute. reflexivity. Qed.
